(** * AppArmor profile fragment staging: the module and its action plugin

    A shallow embedding of [plugins/modules/apparmor_profile.py] (the
    fragment staging engine that runs on the managed host) and of
    [plugins/action/apparmor_profile.py] (the controller-side plugin that
    resolves [fragment_src]), together with the properties of the written
    specification that can be stated over them.

    The Python code talks to the operating system through [os], [os.path]
    and [tempfile].  Those calls are modelled by a small POSIX file system:
    a finite map from resolved paths to files and directories, an error
    monad in which every system call may raise [OSError], and an
    environment that fixes what the program cannot control (the clock, the
    names drawn by [tempfile], the umask, and which system calls the host
    refuses). *)

From Stdlib Require Import NArith String Ascii List Bool Lia.
From stdpp Require Import base option list gmap strings pretty.

(** ** Text *)

Module Text.

Definition LF : ascii := "010"%char.
Definition CR : ascii := "013"%char.
Definition slash : ascii := "/"%char.

(** The one-character string a Python literal writes ["\n"]. *)
Definition nl : string := String LF "".

Fixpoint last_char (s : string) : option ascii :=
  match s with
  | EmptyString => None
  | String c EmptyString => Some c
  | String _ r => last_char r
  end.

Definition startswith (c : ascii) (s : string) : bool :=
  match s with
  | String c' _ => bool_decide (c' = c)
  | EmptyString => false
  end.

Definition endswith (c : ascii) (s : string) : bool :=
  bool_decide (last_char s = Some c).

(** Python truthiness of a [str]. *)
Definition truthy (s : string) : bool :=
  match s with EmptyString => false | _ => true end.

(** What a text-mode [read()] returns for the bytes of a file: Python
    opens with [newline=None], so ["\r\n"] and a lone ["\r"] both come
    back as ["\n"].  Writing in text mode on POSIX stores ["\n"] as it
    is, so the write direction is the identity. *)
Fixpoint universal_newlines (s : string) : string :=
  match s with
  | EmptyString => EmptyString
  | String c r =>
      if bool_decide (c = CR) then
        match r with
        | String c' r' =>
            if bool_decide (c' = LF) then String LF (universal_newlines r')
            else String LF (universal_newlines r)
        | EmptyString => String LF EmptyString
        end
      else String c (universal_newlines r)
  end.

(** [s.split("/")]. *)
Fixpoint segments_go (cur : string) (s : string) : list string :=
  match s with
  | EmptyString => [cur]
  | String c r =>
      if bool_decide (c = slash) then cur :: segments_go "" r
      else segments_go (cur +:+ String c "") r
  end.

Definition segments (s : string) : list string := segments_go "" s.

End Text.

(** ** Paths *)

Module Path.
Import Text.

(** [os.path.join(a, b)] on POSIX. *)
Definition join (a b : string) : string :=
  if startswith slash b then b
  else if negb (truthy a) || endswith slash a then a +:+ b
  else a +:+ "/" +:+ b.

(** One step of path resolution.  Symbolic links are outside the model,
    so [".."] is the parent directory.  The step does not look at the
    file system: through a ["."] or [".."] segment it reaches the place
    the kernel reaches when the directories walked on the way are
    there. *)
Definition walk (acc : list string) (seg : string) : list string :=
  if bool_decide (seg = "") || bool_decide (seg = ".") then acc
  else if bool_decide (seg = "..") then removelast acc
  else acc ++ [seg].

(** The place a path string denotes, as the list of names from the
    root, for a process whose working directory is [cwd]. *)
Definition resolve (cwd : list string) (p : string) : list string :=
  fold_left walk (segments p) (if startswith slash p then [] else cwd).

Definition parent (k : list string) : list string := removelast k.

End Path.

(** ** The host: file system, environment, exceptions *)

Inductive node : Type :=
| File (data : string) (perm : N)
| Dir (perm : N).

Global Instance node_eq_dec : EqDecision node.
Proof. solve_decision. Defined.

(** The system calls the module issues that can raise.  [os.path.exists]
    never raises and is not listed. *)
Inductive syscall : Type :=
| SysMakedirs (p : string)
| SysMkstemp (dir : string)
| SysWrite (p : string)
| SysRename (src dst : string)
| SysChmod (p : string)
| SysUnlink (p : string)
| SysRmdir (p : string)
| SysOpen (p : string).

Global Instance syscall_eq_dec : EqDecision syscall.
Proof. solve_decision. Defined.

Inductive errno : Type :=
| ENOENT | EEXIST | ENOTDIR | EISDIR | ENOTEMPTY | EBUSY | EINVAL | EIO.

Global Instance errno_eq_dec : EqDecision errno.
Proof. solve_decision. Defined.

(** The exceptions of the model: an [OSError] (of which [IOError] is an
    alias in Python 3), with its cause and the call that failed.
    Exceptions of other classes (the [UnicodeDecodeError] of a text-mode
    read) are outside the model. *)
Inductive exn : Type :=
| OSError (e : errno) (c : syscall).

Inductive res (A : Type) : Type :=
| Ok (a : A)
| Raise (x : exn).
Arguments Ok {A} a.
Arguments Raise {A} x.

(** What the program does not decide. *)
Record environment : Type := {
  cwd : list string;            (** working directory of the process *)
  umask : N;
  clock : N;                    (** [time.time()], in nanoseconds *)
  tmp_names : list string;      (** the candidate names [tempfile] draws *)
  refuses : syscall → bool;     (** calls the host fails with [EIO] *)
  short_write : nat;            (** characters that reach the disk when a
                                    write is refused *)
  describes : exn → string;     (** [str(e)]: the text the platform gives
                                    the exception *)
}.

(** The state the program changes: the file system, and (as a ghost
    record, for the statements about error handling) every system call
    that has raised so far. *)
Record world : Type := {
  fs : gmap (list string) node;
  raised : list syscall;
}.

Definition M (A : Type) : Type := world → res A * world.

Definition ret {A : Type} (a : A) : M A := λ w, (Ok a, w).

Definition bind {A B : Type} (m : M A) (k : A → M B) : M B :=
  λ w, match m w with
       | (Ok a, w') => k a w'
       | (Raise x, w') => (Raise x, w')
       end.

Declare Scope prog_scope.
Delimit Scope prog_scope with prog.
Bind Scope prog_scope with M.
Notation "'let*' x := m 'in' k" := (bind m (λ x, k))
  (at level 10, x name, m at level 100, k at level 200) : prog_scope.
Notation "m ;; k" := (bind m (λ _, k))
  (at level 100, k at level 200, right associativity) : prog_scope.
Local Open Scope prog_scope.

Definition throw {A : Type} (x : exn) : M A := λ w, (Raise x, w).

(** A system call raising: the exception leaves, and the ghost record
    notes it. *)
Definition os_error {A : Type} (e : errno) (c : syscall)
    (m : gmap (list string) node) (w : world) : res A * world :=
  (Raise (OSError e c), {| fs := m; raised := raised w ++ [c] |}).

(** [try: body except Exception as e: handler(e)].  The model has no
    exception but [OSError], so this also stands for [except OSError]
    and [except IOError]. *)
Definition try_except {A : Type} (body : M A) (handler : exn → M A) : M A :=
  λ w, match body w with
       | (Raise x, w') => handler x w'
       | r => r
       end.

Definition o600 : N := 384.
Definition o644 : N := 420.
Definition o755 : N := 493.
Definition o777 : N := 511.

Module OS.
Import Path.

(** The root directory always exists and is not an entry of the map. *)
Definition stat (m : gmap (list string) node) (k : list string) : option node :=
  match k with
  | [] => Some (Dir o755)
  | _ => m !! k
  end.

Definition has_entries (m : gmap (list string) node) (k : list string) : bool :=
  bool_decide (map_Exists (λ k' _, k' ≠ [] ∧ parent k' = k) m).

(** [grows top m m']: [m'] is [m] with some missing directories on the
    way to [top] made; nothing that was there has changed. *)
Definition grows (top : list string) (m m' : gmap (list string) node) : Prop :=
  ∀ k, m' !! k = m !! k ∨
       (m !! k = None ∧ (∃ perm, m' !! k = Some (Dir perm)) ∧ k `prefix_of` top).

Section Calls.
Variable env : environment.

Definition place (p : string) : list string := resolve (cwd env) p.

(** [os.path.exists(p)]: whether there is something at [p].  A [stat]
    that fails for another reason than a missing entry, which
    [os.path.exists] answers with [False] as well, is outside the
    modelled host. *)
Definition exists_ (p : string) : M bool :=
  λ w, (Ok (bool_decide (is_Some (stat (fs w) (place p)))), w).

Definition mkdir (k : list string) (mode : N) (m : gmap (list string) node)
  : option errno * gmap (list string) node :=
  match stat m k with
  | Some _ => (Some EEXIST, m)
  | None =>
      match stat m (parent k) with
      | Some (Dir _) => (None, <[k := Dir (N.ldiff mode (umask env))]> m)
      | Some (File _ _) => (Some ENOTDIR, m)
      | None => (Some ENOENT, m)
      end
  end.

(** [os.makedirs(name, mode)] with [exist_ok=False], on the reversed
    list of names: when the parent is missing it is made first (with
    the default mode, and tolerating that it exists), then the leaf. *)
Fixpoint makedirs_rev (rk : list string) (mode : N) (m : gmap (list string) node)
  : option errno * gmap (list string) node :=
  match rk with
  | [] => (Some EEXIST, m)
  | _ :: rhead =>
      let '(e, m1) :=
        match stat m (rev rhead) with
        | None =>
            match makedirs_rev rhead o777 m with
            | (Some EEXIST, m') => (None, m')
            | r => r
            end
        | Some _ => (None, m)
        end in
      match e with
      | Some e => (Some e, m1)
      | None => mkdir (rev rk) mode m1
      end
  end.

Definition makedirs (p : string) (mode : N) : M unit :=
  λ w, if refuses env (SysMakedirs p) then os_error EIO (SysMakedirs p) (fs w) w
       else match makedirs_rev (rev (place p)) mode (fs w) with
            | (None, m') => (Ok (), {| fs := m'; raised := raised w |})
            | (Some e, m') => os_error e (SysMakedirs p) m' w
            end.

(** [tempfile.mkstemp(dir=, prefix=, suffix=)]: the first candidate
    name that is free is created exclusively, empty, mode 0600.  The
    path handed back names the file through [dir] as it was given
    (Python hands back its absolute form, which denotes the same
    place). *)
Fixpoint mkstemp_go (names : list string) (dir pre suf : string)
    (m : gmap (list string) node) : errno + string * gmap (list string) node :=
  match names with
  | [] => inl EEXIST
  | n :: names' =>
      let file := join dir (pre +:+ n +:+ suf) in
      match stat m (place file) with
      | Some _ => mkstemp_go names' dir pre suf m
      | None =>
          match stat m (parent (place file)) with
          | Some (Dir _) =>
              inr (file, <[place file := File "" (N.ldiff o600 (umask env))]> m)
          | Some (File _ _) => inl ENOTDIR
          | None => inl ENOENT
          end
      end
  end.

Definition mkstemp (dir pre suf : string) : M string :=
  λ w, if refuses env (SysMkstemp dir) then os_error EIO (SysMkstemp dir) (fs w) w
       else match mkstemp_go (tmp_names env) dir pre suf (fs w) with
            | inr (file, m') => (Ok file, {| fs := m'; raised := raised w |})
            | inl e => os_error e (SysMkstemp dir) (fs w) w
            end.

(** [with os.fdopen(fd, 'w') as f: f.write(text)] on the file that
    [mkstemp] opened at [p].  A refused write may leave any prefix of
    the text behind. *)
Definition write (p : string) (text : string) : M unit :=
  λ w, match stat (fs w) (place p) with
       | Some (File _ perm) =>
           if refuses env (SysWrite p) then
             os_error EIO (SysWrite p)
               (<[place p := File (String.substring 0 (short_write env) text) perm]> (fs w)) w
           else (Ok (), {| fs := <[place p := File text perm]> (fs w);
                           raised := raised w |})
       | Some (Dir _) => os_error EISDIR (SysWrite p) (fs w) w
       | None => os_error ENOENT (SysWrite p) (fs w) w
       end.

(** [os.rename(src, dst)] of a regular file: it replaces a file at
    [dst] in one step; a directory at [dst] is an error.  The module
    only ever renames the file [mkstemp] made, so renaming a
    directory is left as an error. *)
Definition rename (src dst : string) : M unit :=
  λ w, let c := SysRename src dst in
       if refuses env c then os_error EIO c (fs w) w
       else match stat (fs w) (place src) with
            | None => os_error ENOENT c (fs w) w
            | Some (Dir _) => os_error EINVAL c (fs w) w
            | Some (File d perm) =>
                match stat (fs w) (place dst), stat (fs w) (parent (place dst)) with
                | Some (Dir _), _ => os_error EISDIR c (fs w) w
                | _, Some (Dir _) =>
                    (Ok (), {| fs := <[place dst := File d perm]> (delete (place src) (fs w));
                               raised := raised w |})
                | _, Some (File _ _) => os_error ENOTDIR c (fs w) w
                | _, None => os_error ENOENT c (fs w) w
                end
            end.

Definition chmod (p : string) (mode : N) : M unit :=
  λ w, let c := SysChmod p in
       if refuses env c then os_error EIO c (fs w) w
       else match stat (fs w) (place p) with
            | None => os_error ENOENT c (fs w) w
            | Some _ =>
                (Ok (), {| fs := alter (λ n, match n with
                                             | File d _ => File d mode
                                             | Dir _ => Dir mode
                                             end) (place p) (fs w);
                           raised := raised w |})
            end.

Definition unlink (p : string) : M unit :=
  λ w, let c := SysUnlink p in
       if refuses env c then os_error EIO c (fs w) w
       else match stat (fs w) (place p) with
            | None => os_error ENOENT c (fs w) w
            | Some (Dir _) => os_error EISDIR c (fs w) w
            | Some (File _ _) =>
                (Ok (), {| fs := delete (place p) (fs w); raised := raised w |})
            end.

Definition rmdir (p : string) : M unit :=
  λ w, let c := SysRmdir p in
       if refuses env c then os_error EIO c (fs w) w
       else match place p, stat (fs w) (place p) with
            | [], _ => os_error EBUSY c (fs w) w
            | _, None => os_error ENOENT c (fs w) w
            | _, Some (File _ _) => os_error ENOTDIR c (fs w) w
            | _, Some (Dir _) =>
                if has_entries (fs w) (place p) then os_error ENOTEMPTY c (fs w) w
                else (Ok (), {| fs := delete (place p) (fs w); raised := raised w |})
            end.

(** [with open(p, 'r') as f: f.read()].  Files hold text in the locale's
    encoding, which is taken to round-trip; what reading changes is the
    line ends.  Bytes that do not decode, on which [read] raises
    [UnicodeDecodeError], are outside the model. *)
Definition read_text (p : string) : M string :=
  λ w, let c := SysOpen p in
       if refuses env c then os_error EIO c (fs w) w
       else match stat (fs w) (place p) with
            | None => os_error ENOENT c (fs w) w
            | Some (Dir _) => os_error EISDIR c (fs w) w
            | Some (File d _) => (Ok (Text.universal_newlines d), w)
            end.

End Calls.
End OS.


(** ** plugins/modules/apparmor_profile.py *)

(** The module's parameters as the task supplies them: a key is either
    absent or carries a string. *)
Record task_args : Type := {
  arg_name : option string;
  arg_fragment_src : option string;
  arg_fragment : option string;
  arg_mode : option string;
  arg_role_name : option string;
  arg_state : option string;
  arg_staging_base_dir : option string;
}.

(** [module.params] once [AnsibleModule] has accepted the arguments and
    filled in the defaults. *)
Record params : Type := {
  name : string;
  fragment_src : option string;
  fragment : option string;
  mode : string;
  role_name : option string;
  state : string;
  staging_base_dir : string;
}.

Record result : Type := {
  changed : bool;
  message : string;
  fragment_path : string;
}.

Inductive outcome : Type :=
| ExitJson (r : result)
| FailJson (msg : string) (r : result)
| ArgumentError (msg : string).

(** The [changed] value of a run that exits normally. *)
Definition reported (o : outcome) : option bool :=
  match o with
  | ExitJson r => Some (changed r)
  | _ => None
  end.

(** Whether the run ended in [fail_json]. *)
Definition failed (o : outcome) : bool :=
  match o with
  | FailJson _ _ => true
  | _ => false
  end.

Module Ansible.

Definition mode_choices : list string := ["enforce"; "complain"; "disable"].
Definition state_choices : list string := ["present"; "absent"].

(** How many of two parameters the task supplies. *)
Definition count_terms (a b : option string) : nat :=
  (if a is Some _ then 1 else 0) + (if b is Some _ then 1 else 0).

(** [AnsibleModule(argument_spec=..., mutually_exclusive=[[fragment_src,
    fragment]], required_one_of=[[fragment_src, fragment]])]: the checks
    of the library's argument validation for this specification, in the
    library's order.  [required=True] asks for the key to be supplied;
    [choices] asks for membership; a missing key with a default takes
    it.  Values of [type='path'] are taken as given (no [~] or [$VAR]
    to expand). *)
Definition AnsibleModule (a : task_args) : string + params :=
  if bool_decide (1 < count_terms (arg_fragment_src a) (arg_fragment a)) then
    inl "parameters are mutually exclusive: fragment_src|fragment"
  else
    match arg_name a with
    | None => inl "missing required arguments: name"
    | Some n =>
        let m := default "enforce" (arg_mode a) in
        let s := default "present" (arg_state a) in
        if negb (bool_decide (m ∈ mode_choices)) then
          inl ("value of mode must be one of: enforce, complain, disable, got: " +:+ m)
        else if negb (bool_decide (s ∈ state_choices)) then
          inl ("value of state must be one of: present, absent, got: " +:+ s)
        else if bool_decide (count_terms (arg_fragment_src a) (arg_fragment a) = 0) then
          inl "one of the following is required: fragment_src, fragment"
        else
          inr {| name := n;
                 fragment_src := arg_fragment_src a;
                 fragment := arg_fragment a;
                 mode := m;
                 role_name := arg_role_name a;
                 state := s;
                 staging_base_dir := default "/etc/apparmor.d/roles" (arg_staging_base_dir a) |}
    end.

End Ansible.

Module Engine.
Import Text.

(** How an f-string renders a value that may be [None]. *)
Definition fmt (o : option string) : string := default "None" o.

(** [f"# Mode: {mode}\n{fragment_content}"]. *)
Definition stored_form (mode : string) (fragment_content : option string) : string :=
  "# Mode: " +:+ mode +:+ nl +:+ fmt fragment_content.

(** [os.path.join(staging_dir, f"{role_name}.fragment")]. *)
Definition fragment_file (staging_dir role_name : string) : string :=
  Path.join staging_dir (role_name +:+ ".fragment").

(** The path [tempfile.mkstemp] makes of the candidate name [n] for
    [dir=staging_dir], [prefix=f".{role_name}_"], [suffix=".tmp"]. *)
Definition temp_file (staging_dir role_name n : string) : string :=
  Path.join staging_dir (("." +:+ role_name +:+ "_") +:+ n +:+ ".tmp").

(** ['{p}'] in an f-string. *)
Definition quoted (p : string) : string := "'" +:+ p +:+ "'".

Section Host.
Variable env : environment.

(** [str(e)].  Which path the text names is the platform's business
    (the temporary file for [mkstemp], the directory that could not be
    made for [makedirs]), so the text is taken from the environment. *)
Definition str (x : exn) : string := describes env x.

Definition ensure_staging_directory (profile_name staging_base_dir : string) : M string :=
  let staging_dir := Path.join staging_base_dir profile_name in
  let* there := OS.exists_ env staging_dir in
  (if negb there then OS.makedirs env staging_dir o755 else ret ());;
  ret staging_dir.

(** [f"role_{int(time.time())}"]: the whole seconds of the clock. *)
Definition detect_role_name : string :=
  "role_" +:+ pretty (clock env `div` 1000000000)%N.

Definition write_fragment (staging_dir : string) (fragment_content : option string)
    (mode role_name : string) : M string :=
  let fragment_path := fragment_file staging_dir role_name in
  let content_with_mode := stored_form mode fragment_content in
  let* temp_path := OS.mkstemp env staging_dir ("." +:+ role_name +:+ "_") ".tmp" in
  try_except
    (OS.write env temp_path content_with_mode;;
     OS.rename env temp_path fragment_path;;
     OS.chmod env fragment_path o644;;
     ret fragment_path)
    (λ x, try_except (OS.unlink env temp_path) (λ _, ret ());;
          throw x).

Definition remove_fragment (staging_dir role_name : string) : M bool :=
  let fragment_path := fragment_file staging_dir role_name in
  let* there := OS.exists_ env fragment_path in
  if there then
    OS.unlink env fragment_path;;
    try_except (OS.rmdir env staging_dir) (λ _, ret ());;
    ret true
  else ret false.

Definition fragment_exists_and_unchanged (staging_dir : string)
    (fragment_content : option string) (mode role_name : string) : M bool :=
  let fragment_path := fragment_file staging_dir role_name in
  let* there := OS.exists_ env fragment_path in
  if negb there then ret false
  else
    try_except
      (let* existing_content := OS.read_text env fragment_path in
       let expected_content := stored_form mode fragment_content in
       ret (bool_decide (existing_content = expected_content)))
      (λ _, ret false).

Definition initial_result : result :=
  {| changed := false; message := ""; fragment_path := "" |}.

Definition subject (profile_name role_name : string) : string :=
  "Fragment for profile " +:+ profile_name +:+ " from role " +:+ role_name.

(** The [try] block of [run_module].  The [result] dictionary is only
    assigned to after the last call that can raise, so an exception
    always meets it in its initial state. *)
Definition manage (p : params) (check_mode : bool) (role_name : string) : M result :=
  let* staging_dir :=
    (if negb check_mode then ensure_staging_directory (name p) (staging_base_dir p)
     else ret (Path.join (staging_base_dir p) (name p))) in
  if bool_decide (state p = "present") then
    let* unchanged :=
      (if negb check_mode
       then fragment_exists_and_unchanged staging_dir (fragment p) (mode p) role_name
       else ret false) in
    if unchanged then
      ret {| changed := false;
              message := subject (name p) role_name +:+ " already exists and is unchanged";
              fragment_path := fragment_file staging_dir role_name |}
    else
      let* path :=
        (if negb check_mode
         then write_fragment staging_dir (fragment p) (mode p) role_name
         else ret (fragment_file staging_dir role_name)) in
      ret {| changed := true;
              message := subject (name p) role_name +:+ " has been " +:+
                         (if negb check_mode then "created" else "would be created");
              fragment_path := path |}
  else if bool_decide (state p = "absent") then
    if negb check_mode then
      let* removed := remove_fragment staging_dir role_name in
      if removed then
        ret {| changed := true;
                message := subject (name p) role_name +:+ " has been removed";
                fragment_path := "" |}
      else
        ret {| changed := false;
                message := subject (name p) role_name +:+ " was not found";
                fragment_path := "" |}
    else
      let* there := OS.exists_ env (fragment_file staging_dir role_name) in
      if there then
        ret {| changed := true;
                message := subject (name p) role_name +:+ " would be removed";
                fragment_path := "" |}
      else
        ret {| changed := false;
                message := subject (name p) role_name +:+ " would not be removed (not found)";
                fragment_path := "" |}
  else ret initial_result.

(** The contributor the run works for: the supplied [role_name], or the
    detected one when it is missing or empty. *)
Definition contributor (p : params) : string :=
  match role_name p with
  | Some r => if truthy r then r else detect_role_name
  | None => detect_role_name
  end.

Definition run_params (p : params) (check_mode : bool) (w : world) : outcome * world :=
  match manage p check_mode (contributor p) w with
  | (Ok r, w') => (ExitJson r, w')
  | (Raise x, w') =>
      (FailJson ("Failed to manage AppArmor profile fragment: " +:+ str x) initial_result, w')
  end.

Definition run_module (a : task_args) (check_mode : bool) (w : world) : outcome * world :=
  match Ansible.AnsibleModule a with
  | inl msg => (ArgumentError msg, w)
  | inr p => run_params p check_mode w
  end.

End Host.
End Engine.


(** ** plugins/action/apparmor_profile.py *)

Module Action.
Import Text.

(** What the plugin asks of the controller.  [find_needle dirname needle]
    is [self._find_needle]: the path found, or [None] for
    [AnsibleFileNotFound]; reading and templating give the text, or the
    text of the exception they raise. *)
Record controller : Type := {
  find_needle : string → string → option string;
  read_source : string → string + string;
  template : string → string + string;
}.

(** The requests the plugin makes, in order. *)
Inductive request : Type :=
| Lookup (dirname needle : string)
| ReadSource (path : string)
| Template (text : string)
| ExecuteModule (a : task_args).

Inductive action_result : Type :=
| Failed (msg : string)
| Returned (o : outcome).

(** Truthiness of [self._task.args.get(key, None)]. *)
Definition supplied (o : option string) : bool :=
  match o with
  | Some s => truthy s
  | None => false
  end.

Section Plugin.
Variable ctl : controller.
Variable env : environment.

(** [self._execute_module(module_args=self._task.args)]. *)
Definition execute_module (a : task_args) (check_mode : bool) (log : list request)
    (w : world) : action_result * list request * world :=
  let '(o, w') := Engine.run_module env a check_mode w in
  (Returned o, log ++ [ExecuteModule a], w').

(** The part of [run] after the source file is located. *)
Definition read_and_template (a : task_args) (source_file : string) (check_mode : bool)
    (log : list request) (w : world) : action_result * list request * world :=
  match read_source ctl source_file with
  | inr e =>
      (Failed ("Failed to read file " +:+ Engine.quoted source_file +:+ ": " +:+ e),
       log ++ [ReadSource source_file], w)
  | inl file_content =>
      match template ctl file_content with
      | inr e =>
          (Failed ("Failed to template file " +:+ Engine.quoted source_file +:+ ": " +:+ e),
           log ++ [ReadSource source_file; Template file_content], w)
      | inl templated_content =>
          execute_module
            {| arg_name := arg_name a;
               arg_fragment_src := None;
               arg_fragment := Some templated_content;
               arg_mode := arg_mode a;
               arg_role_name := arg_role_name a;
               arg_state := arg_state a;
               arg_staging_base_dir := arg_staging_base_dir a |}
            check_mode
            (log ++ [ReadSource source_file; Template file_content]) w
      end
  end.

Definition run (a : task_args) (check_mode : bool) (w : world)
  : action_result * list request * world :=
  let fragment_src := arg_fragment_src a in
  let fragment := arg_fragment a in
  if supplied fragment_src then
    if supplied fragment then
      (Failed "fragment_src and fragment are mutually exclusive", [], w)
    else
      let src := default "" fragment_src in
      match find_needle ctl "files" src with
      | Some source_file =>
          read_and_template a source_file check_mode [Lookup "files" src] w
      | None =>
          match find_needle ctl "templates" src with
          | Some source_file =>
              read_and_template a source_file check_mode
                [Lookup "files" src; Lookup "templates" src] w
          | None =>
              (Failed ("Could not find or access " +:+ Engine.quoted src +:+
                       " in files/ or templates/ directories"),
               [Lookup "files" src; Lookup "templates" src], w)
          end
      end
  else execute_module a check_mode [] w.

End Plugin.
End Action.

(** ** Concrete hosts and tasks used in the examples *)

Module Scenario.

Definition errno_text (e : errno) : string :=
  match e with
  | ENOENT => "[Errno 2] No such file or directory"
  | EIO => "[Errno 5] Input/output error"
  | EBUSY => "[Errno 16] Device or resource busy"
  | EEXIST => "[Errno 17] File exists"
  | ENOTDIR => "[Errno 20] Not a directory"
  | EISDIR => "[Errno 21] Is a directory"
  | EINVAL => "[Errno 22] Invalid argument"
  | ENOTEMPTY => "[Errno 39] Directory not empty"
  end.

(** The text of an exception on the example hosts: the cause alone. *)
Definition cause (x : exn) : string :=
  match x with
  | OSError e _ => errno_text e
  end.

(** A host that refuses nothing. *)
Definition quiet : environment :=
  {| cwd := []; umask := 18; clock := 1700000000123456789;
     tmp_names := ["abcd1234"; "efgh5678"];
     refuses := λ _, false; short_write := 0; describes := cause |}.

(** The same host, refusing the calls for which [bad] holds. *)
Definition refusing (bad : syscall → bool) : environment :=
  {| cwd := []; umask := 18; clock := 1700000000123456789;
     tmp_names := ["abcd1234"; "efgh5678"];
     refuses := bad; short_write := 3; describes := cause |}.

(** The same host, later within the same second. *)
Definition later : environment :=
  {| cwd := []; umask := 18; clock := 1700000000987654321;
     tmp_names := ["ijkl9012"; "mnop3456"];
     refuses := λ _, false; short_write := 0; describes := cause |}.




Definition task (nm : string) (frag : option string) (md role st : option string)
  : task_args :=
  {| arg_name := Some nm; arg_fragment_src := None; arg_fragment := frag;
     arg_mode := md; arg_role_name := role; arg_state := st;
     arg_staging_base_dir := None |}.

Definition nginx_rules : string := "/var/www/html/** r," +:+ Text.nl.

(** [present(target="usr.sbin.nginx", contributor="nginx_role",
    content="/var/www/html/** r,\n", mode="enforce")]. *)
Definition nginx_present : task_args :=
  task "usr.sbin.nginx" (Some nginx_rules) (Some "enforce") (Some "nginx_role") None.

(** The same rule, as a file edited on Windows ends its line. *)
Definition nginx_rules_crlf : string :=
  "/var/www/html/** r," +:+ String Text.CR Text.nl.

Definition nginx_present_crlf : task_args :=
  task "usr.sbin.nginx" (Some nginx_rules_crlf) (Some "enforce") (Some "nginx_role") None.

Definition nginx_absent : task_args :=
  task "usr.sbin.nginx" (Some "") None (Some "nginx_role") (Some "absent").

(** Two callers that give no [role_name]. *)
Definition unnamed_first : task_args :=
  task "usr.sbin.nginx" (Some nginx_rules) None None None.

Definition unnamed_second : task_args :=
  task "usr.sbin.nginx" (Some ("/var/log/nginx/** w," +:+ Text.nl)) None None None.

(** A task whose target name is the empty string. *)
Definition empty_target : task_args :=
  task "" (Some nginx_rules) None (Some "nginx_role") None.

Definition nginx_params (st : string) : params :=
  {| name := "usr.sbin.nginx"; fragment_src := None; fragment := Some nginx_rules;
     mode := "enforce"; role_name := Some "nginx_role"; state := st;
     staging_base_dir := "/etc/apparmor.d/roles" |}.

(** A task that names its content by reference. *)
Definition by_reference : task_args :=
  {| arg_name := Some "usr.sbin.nginx";
     arg_fragment_src := Some "apparmor/usr.sbin.nginx.rules";
     arg_fragment := None; arg_mode := Some "enforce";
     arg_role_name := Some "nginx_role"; arg_state := None;
     arg_staging_base_dir := None |}.

(** A role that keeps the rules under [templates/] only, with a variable
    that templating fills in. *)
Definition templates_only : Action.controller :=
  {| Action.find_needle := λ dirname needle,
       if bool_decide (dirname = "templates")
          && bool_decide (needle = "apparmor/usr.sbin.nginx.rules")
       then Some "/srv/roles/web/templates/apparmor/usr.sbin.nginx.rules"
       else None;
     Action.read_source := λ path,
       if bool_decide (path = "/srv/roles/web/templates/apparmor/usr.sbin.nginx.rules")
       then inl ("{{ docroot }}/** r," +:+ Text.nl)
       else inr "[Errno 2] No such file or directory";
     Action.template := λ text,
       if bool_decide (text = "{{ docroot }}/** r," +:+ Text.nl)
       then inl nginx_rules
       else inl text |}.

Definition roles_dir : list string := ["etc"; "apparmor.d"; "roles"].
Definition nginx_dir : list string := roles_dir ++ ["usr.sbin.nginx"].
Definition nginx_fragment : list string := nginx_dir ++ ["nginx_role.fragment"].
Definition php_fragment : list string := nginx_dir ++ ["php_role.fragment"].

Definition world_of (m : gmap (list string) node) : world :=
  {| fs := m; raised := [] |}.

(** Nothing but the root directory. *)
Definition bare : world := world_of ∅.

(** The base directory exists, with no target under it. *)
Definition base_only : world :=
  world_of (<[roles_dir := Dir o755]>
            (<[["etc"; "apparmor.d"] := Dir o755]>
             (<[["etc"] := Dir o755]> ∅))).

(** The nginx target holds the fragment whose bytes are [data]. *)
Definition staged (data : string) : world :=
  world_of (<[nginx_fragment := File data o644]>
            (<[nginx_dir := Dir o755]> (fs base_only))).

(** The nginx target holds two fragments. *)
Definition staged_two (data other : string) : world :=
  world_of (<[php_fragment := File other o644]> (fs (staged data))).

Definition nginx_stored : string := "# Mode: enforce" +:+ Text.nl +:+ nginx_rules.

(** What an earlier run in complain mode stored. *)
Definition nginx_older : string := "# Mode: complain" +:+ Text.nl +:+ nginx_rules.

End Scenario.

(** ** Predicates used to state the properties *)

Module Outcome.
Import Engine.


(** The arguments [AnsibleModule] turns down. *)
Definition rejected (a : task_args) : Prop :=
  arg_name a = None
  ∨ (is_Some (arg_fragment_src a) ∧ is_Some (arg_fragment a))
  ∨ (arg_fragment_src a = None ∧ arg_fragment a = None)
  ∨ default "enforce" (arg_mode a) ∉ Ansible.mode_choices
  ∨ default "present" (arg_state a) ∉ Ansible.state_choices.

(** The arguments of the task once the plugin has put the templated
    text under [fragment] and deleted [fragment_src]. *)
Definition handed_over (a : task_args) (text : string) : task_args :=
  {| arg_name := arg_name a; arg_fragment_src := None; arg_fragment := Some text;
     arg_mode := arg_mode a; arg_role_name := arg_role_name a;
     arg_state := arg_state a; arg_staging_base_dir := arg_staging_base_dir a |}.

(** What the plugin does with a [fragment_src] it accepts, read off the
    requests it made ([log]), its result and the world it leaves. *)
Definition resolved_in_order (ctl : Action.controller) (env : environment)
    (a : task_args) (check_mode : bool) (w : world)
    (out : Action.action_result * list Action.request * world) : Prop :=
  let src := default "" (arg_fragment_src a) in
  let res := out.1.1 in
  let log := out.1.2 in
  let in_files := Action.find_needle ctl "files" src in
  let in_templates := Action.find_needle ctl "templates" src in
  (* files/ is asked first, templates/ only when files/ has failed *)
  log !! 0 = Some (Action.Lookup "files" src)
  ∧ (Action.Lookup "templates" src ∈ log ↔ in_files = None)
  (* the file read is the one found, files/ having precedence *)
  ∧ (∀ path, Action.ReadSource path ∈ log ↔
             in_files = Some path ∨ (in_files = None ∧ in_templates = Some path))
  (* the lookup error is for both lookups failing, and only then *)
  ∧ (res = Action.Failed ("Could not find or access " +:+ Engine.quoted src +:+
                          " in files/ or templates/ directories")
     ↔ in_files = None ∧ in_templates = None)
  ∧ (in_files = None ∧ in_templates = None →
     out.2 = w ∧ ∀ a', Action.ExecuteModule a' ∉ log)
  (* what was read goes to the templar, wherever it was found *)
  ∧ (∀ path content,
       Action.ReadSource path ∈ log → Action.read_source ctl path = inl content →
       Action.Template content ∈ log)
  (* the templated text is what the module is run with, and the run of
     the module is the result *)
  ∧ (∀ path content text,
       Action.ReadSource path ∈ log → Action.read_source ctl path = inl content →
       Action.template ctl content = inl text →
       Action.ExecuteModule (handed_over a text) ∈ log
       ∧ res = Action.Returned (Engine.run_module env (handed_over a text) check_mode w).1
       ∧ out.2 = (Engine.run_module env (handed_over a text) check_mode w).2)
  (* a source that cannot be read or templated fails the task before
     the module runs *)
  ∧ (∀ path e,
       Action.ReadSource path ∈ log → Action.read_source ctl path = inr e →
       res = Action.Failed ("Failed to read file " +:+ Engine.quoted path +:+ ": " +:+ e)
       ∧ out.2 = w ∧ ∀ a', Action.ExecuteModule a' ∉ log)
  ∧ (∀ path content e,
       Action.ReadSource path ∈ log → Action.read_source ctl path = inl content →
       Action.template ctl content = inr e →
       res = Action.Failed ("Failed to template file " +:+ Engine.quoted path +:+ ": " +:+ e)
       ∧ out.2 = w ∧ ∀ a', Action.ExecuteModule a' ∉ log)
  (* nothing reaches the module but that one templated text *)
  ∧ (∀ a', Action.ExecuteModule a' ∈ log →
       ∃ path content text,
         Action.ReadSource path ∈ log
         ∧ Action.read_source ctl path = inl content
         ∧ Action.Template content ∈ log
         ∧ Action.template ctl content = inl text
         ∧ a' = handed_over a text).


End Outcome.

(** ** Shapes of names, parameters and tasks *)

Module Shape.

(** [c in s]. *)
Fixpoint contains (c : ascii) (s : string) : bool :=
  match s with
  | EmptyString => false
  | String c' r => bool_decide (c' = c) || contains c r
  end.

(** A name that is one ordinary path segment. *)
Definition plain (s : string) : Prop :=
  contains Text.slash s = false ∧ s ≠ "" ∧ s ≠ "." ∧ s ≠ "..".

(** A path that names its place literally: it is not empty and has no
    ["."] or [".."] segment, so the place it names does not depend on
    which directories exist. *)
Definition literal (p : string) : bool :=
  Text.truthy p
  && bool_decide ("." ∉ Text.segments p) && bool_decide (".." ∉ Text.segments p).

(** The same parameters for another [state]. *)
Definition with_state (st : string) (p : params) : params :=
  {| name := name p; fragment_src := fragment_src p; fragment := fragment p;
     mode := mode p; role_name := role_name p; state := st;
     staging_base_dir := staging_base_dir p |}.

(** The same parameters under another base directory. *)
Definition with_base (b : string) (p : params) : params :=
  {| name := name p; fragment_src := fragment_src p; fragment := fragment p;
     mode := mode p; role_name := role_name p; state := state p;
     staging_base_dir := b |}.

(** The same task without the [fragment] key. *)
Definition without_fragment (a : task_args) : task_args :=
  {| arg_name := arg_name a; arg_fragment_src := arg_fragment_src a;
     arg_fragment := None; arg_mode := arg_mode a;
     arg_role_name := arg_role_name a; arg_state := arg_state a;
     arg_staging_base_dir := arg_staging_base_dir a |}.

(** The path a run reports, when it exits normally. *)
Definition reported_path (o : outcome) : option string :=
  match o with
  | ExitJson r => Some (fragment_path r)
  | _ => None
  end.

(** A task whose target name is an absolute path. *)
Definition absolute_target : params :=
  {| name := "/tmp/usr.sbin.nginx"; fragment_src := None;
     fragment := Some Scenario.nginx_rules; mode := "enforce";
     role_name := Some "nginx_role"; state := "present";
     staging_base_dir := "/etc/apparmor.d/roles" |}.

(** A role that has the file nowhere. *)
Definition no_such_file : Action.controller :=
  {| Action.find_needle := λ _ _, None;
     Action.read_source := λ _, inr "[Errno 2] No such file or directory";
     Action.template := λ text, inl text |}.

(** A task with a reference and an empty inline fragment. *)
Definition reference_and_empty_fragment : task_args :=
  {| arg_name := Some "usr.sbin.nginx";
     arg_fragment_src := Some "apparmor/usr.sbin.nginx.rules";
     arg_fragment := Some ""; arg_mode := Some "enforce";
     arg_role_name := Some "nginx_role"; arg_state := None;
     arg_staging_base_dir := None |}.

(** A task with an empty reference and an inline fragment. *)
Definition empty_reference_and_fragment : task_args :=
  {| arg_name := Some "usr.sbin.nginx"; arg_fragment_src := Some "";
     arg_fragment := Some Scenario.nginx_rules; arg_mode := Some "enforce";
     arg_role_name := Some "nginx_role"; arg_state := None;
     arg_staging_base_dir := None |}.

(** A task with an empty reference and nothing else as content. *)
Definition empty_reference : task_args :=
  {| arg_name := Some "usr.sbin.nginx"; arg_fragment_src := Some "";
     arg_fragment := None; arg_mode := Some "enforce";
     arg_role_name := Some "nginx_role"; arg_state := None;
     arg_staging_base_dir := None |}.

(** A task with a reference and an inline fragment. *)
Definition reference_and_fragment : task_args :=
  {| arg_name := Some "usr.sbin.nginx";
     arg_fragment_src := Some "apparmor/usr.sbin.nginx.rules";
     arg_fragment := Some Scenario.nginx_rules; arg_mode := Some "enforce";
     arg_role_name := Some "nginx_role"; arg_state := None;
     arg_staging_base_dir := None |}.

(** A role that has the rules under [files/]. *)
Definition in_files_dir : Action.controller :=
  {| Action.find_needle := λ dirname needle,
       if bool_decide (dirname = "files") then Some ("/srv/roles/web/files/" +:+ needle)
       else None;
     Action.read_source := λ _, inl Scenario.nginx_rules;
     Action.template := λ text, inl text |}.

Definition no_rmdir (c : syscall) : bool :=
  match c with SysRmdir _ => true | _ => false end.

Definition no_write_no_unlink (c : syscall) : bool :=
  match c with SysWrite _ | SysUnlink _ => true | _ => false end.

(** The nginx target holds one fragment and the temporary file an
    earlier failed write could not remove. *)
Definition staged_with_leftover (data : string) : world :=
  Scenario.world_of
    (<[Scenario.nginx_dir ++ [".nginx_role_abcd1234.tmp"] := File "# M" o600]>
       (fs (Scenario.staged data))).

End Shape.


(** * Properties *)

(** ** Paths and text on examples *)

Example join_nginx :
  Path.join (Path.join "/etc/apparmor.d/roles" "usr.sbin.nginx") "nginx_role.fragment"
  = "/etc/apparmor.d/roles/usr.sbin.nginx/nginx_role.fragment".
Proof. reflexivity. Qed.

Example resolve_nginx :
  Path.resolve [] "/etc/apparmor.d/roles//usr.sbin.nginx/./x"
  = ["etc"; "apparmor.d"; "roles"; "usr.sbin.nginx"; "x"].
Proof. reflexivity. Qed.

Example universal_newlines_crlf :
  Text.universal_newlines ("a" +:+ String Text.CR Text.nl +:+ "b" +:+ String Text.CR "")
  = "a" +:+ Text.nl +:+ "b" +:+ Text.nl.
Proof. reflexivity. Qed.

(** ** Paths: a fragment and a temporary file never share a place *)

Module PathFacts.
Import Text Path.

Lemma last_char_cons (c : ascii) (s : string) :
  s ≠ "" → last_char (String c s) = last_char s.
Proof. by destruct s. Qed.

Lemma app_nonempty (a b : string) : b ≠ "" → a +:+ b ≠ "".
Proof. intros Hb E. apply Hb. destruct a; [exact E | discriminate E]. Qed.

Lemma last_char_app (a b : string) :
  b ≠ "" → last_char (a +:+ b) = last_char b.
Proof.
  intros Hb. induction a as [|c a IH]; [done|].
  change (String c a +:+ b) with (String c (a +:+ b)).
  rewrite last_char_cons; [done|]. by apply app_nonempty.
Qed.

Lemma last_char_join (a b : string) :
  b ≠ "" → last_char (join a b) = last_char b.
Proof.
  intros Hb. unfold join.
  destruct (startswith slash b); [done|].
  destruct (negb (truthy a) || endswith slash a).
  - by apply last_char_app.
  - rewrite last_char_app; [|done]. by apply (last_char_app "/").
Qed.

Lemma segments_go_last (s cur : string) (c : ascii) :
  last_char s = Some c → c ≠ slash →
  ∃ l t, segments_go cur s = l ++ [t] ∧ last_char t = Some c.
Proof.
  revert cur. induction s as [|a r IH]; intros cur Hl Hc; [done|].
  simpl. destruct r as [|b r'].
  - simpl in Hl. injection Hl as ->.
    rewrite bool_decide_eq_false_2 by done. simpl.
    exists [], (cur +:+ String c ""). split; [done|].
    by apply last_char_app.
  - assert (last_char (String b r') = Some c) as Hl' by exact Hl.
    case_bool_decide.
    + destruct (IH "" Hl' Hc) as (l & t & -> & Ht).
      exists (cur :: l), t. by split.
    + by apply IH.
Qed.

Lemma walk_ordinary (acc : list string) (t : string) (c : ascii) :
  last_char t = Some c → c ≠ "."%char → walk acc t = acc ++ [t].
Proof.
  intros Ht Hc. unfold walk.
  assert (t ≠ "" ∧ t ≠ "." ∧ t ≠ "..") as (H0 & H1 & H2).
  { repeat split; intros ->; simpl in Ht; congruence. }
  by rewrite !bool_decide_eq_false_2.
Qed.

(** A path whose last character is an ordinary one names an entry whose
    name ends with that character. *)
Lemma resolve_last (cwd : list string) (p : string) (c : ascii) :
  last_char p = Some c → c ≠ slash → c ≠ "."%char →
  ∃ k t, resolve cwd p = k ++ [t] ∧ last_char t = Some c.
Proof.
  intros Hp Hs Hd. unfold resolve, segments.
  destruct (segments_go_last p "" c Hp Hs) as (l & t & -> & Ht).
  rewrite fold_left_app. simpl. rewrite (walk_ordinary _ t c) by done.
  eauto.
Qed.

Lemma resolve_differ (cwd : list string) (p q : string) (c d : ascii) :
  last_char p = Some c → last_char q = Some d →
  c ≠ slash → c ≠ "."%char → d ≠ slash → d ≠ "."%char → c ≠ d →
  resolve cwd p ≠ resolve cwd q.
Proof.
  intros Hp Hq ? ? ? ? Hcd Heq.
  destruct (resolve_last cwd p c) as (k1 & t1 & E1 & L1); [done..|].
  destruct (resolve_last cwd q d) as (k2 & t2 & E2 & L2); [done..|].
  rewrite E1, E2 in Heq. apply app_inj_tail in Heq as [_ ->]. congruence.
Qed.

Lemma resolve_nonroot (cwd : list string) (p : string) (c : ascii) :
  last_char p = Some c → c ≠ slash → c ≠ "."%char → resolve cwd p ≠ [].
Proof.
  intros Hp Hs Hd. destruct (resolve_last cwd p c) as (k & t & -> & _); [done..|].
  by destruct k.
Qed.

End PathFacts.

(** ** What each system call does to the world *)

Module OSFacts.
Import Path OS.

Lemma grows_refl top m : grows top m m.
Proof. intros k. by left. Qed.

Lemma grows_trans top1 top2 m m1 m2 :
  grows top1 m m1 → grows top2 m1 m2 → top1 `prefix_of` top2 → grows top2 m m2.
Proof.
  intros G1 G2 Hp k.
  destruct (G1 k) as [E1|(N1 & D1 & P1)], (G2 k) as [E2|(N2 & D2 & P2)].
  - left. congruence.
  - right. rewrite <- E1. done.
  - right. rewrite E2. repeat split; [done..|]. by etrans.
  - destruct D1 as [? D1]. congruence.
Qed.

Lemma stat_file m k d perm : stat m k = Some (File d perm) → m !! k = Some (File d perm).
Proof. by destruct k. Qed.

Lemma stat_none m k : stat m k = None → m !! k = None ∧ k ≠ [].
Proof. by destruct k. Qed.

Lemma stat_lookup m k : k ≠ [] → stat m k = m !! k.
Proof. by destruct k. Qed.

Lemma grows_stat top m m' k :
  grows top m m' →
  stat m' k = stat m k ∨ (stat m k = None ∧ ∃ perm, stat m' k = Some (Dir perm)).
Proof.
  intros G. destruct k as [|a k]; [by left|].
  destruct (G (a :: k)) as [E|(N & D & _)]; [by left|by right].
Qed.

Section Calls.
Variable env : environment.

Lemma mkdir_inv k mode m e m' :
  mkdir env k mode m = (e, m') →
  (e = None ∧ m !! k = None ∧ k ≠ [] ∧ m' = <[k := Dir (N.ldiff mode (umask env))]> m)
  ∨ (e ≠ None ∧ m' = m).
Proof.
  unfold mkdir. intros H.
  destruct (stat m k) eqn:Hk; [by simplify_eq; right|].
  apply stat_none in Hk as [? ?].
  repeat case_match; simplify_eq; (by left) || by right.
Qed.

Lemma mkdir_grows k mode m e m' :
  mkdir env k mode m = (e, m') →
  grows k m m' ∧ (e = None → ∃ perm, stat m' k = Some (Dir perm)).
Proof.
  intros H. apply mkdir_inv in H as [(-> & Hn & Hk & ->)|(He & ->)].
  - split.
    + intros k'. destruct (decide (k' = k)) as [->|Hne].
      * right. rewrite lookup_insert_eq. eauto.
      * left. by rewrite lookup_insert_ne.
    + intros _. rewrite stat_lookup by done. rewrite lookup_insert_eq. eauto.
  - split; [apply grows_refl|done].
Qed.

Lemma makedirs_rev_inv rk mode m e m' :
  makedirs_rev env rk mode m = (e, m') →
  grows (rev rk) m m' ∧ (e = None → ∃ perm, stat m' (rev rk) = Some (Dir perm)).
Proof.
  revert mode m e m'. induction rk as [|a rh IH]; intros mode m e m' H.
  - simpl in H. simplify_eq. split; [apply grows_refl|done].
  - cbn [makedirs_rev] in H.
    assert (rev rh `prefix_of` rev (a :: rh)) as Hp.
    { simpl. by apply prefix_app_r. }
    destruct (stat m (rev rh)) eqn:Hs.
    + by apply mkdir_grows in H.
    + destruct (makedirs_rev env rh o777 m) as [e1 m1] eqn:H1.
      apply IH in H1 as [G1 _].
      assert (∀ e2, (e2 = None ∧ mkdir env (rev (a :: rh)) mode m1 = (e, m'))
                    ∨ (e2 ≠ None ∧ e = e2 ∧ m' = m1) →
                    grows (rev (a :: rh)) m m'
                    ∧ (e = None → ∃ perm, stat m' (rev (a :: rh)) = Some (Dir perm))) as K.
      { intros e2 [(-> & Hm)|(Hne & -> & ->)].
        - apply mkdir_grows in Hm as [G2 D2]. split; [|done].
          by eapply grows_trans.
        - split; [|done]. eapply grows_trans; [done|apply grows_refl|done]. }
      destruct e1 as [[]|]; simplify_eq;
        first [ by eapply (K None); left
              | by eapply (K (Some _)); right ].
Qed.

Lemma makedirs_inv p mode w r w' :
  makedirs env p mode w = (r, w') →
  grows (place env p) (fs w) (fs w') ∧
  match r with
  | Ok _ => raised w' = raised w ∧ is_Some (stat (fs w') (place env p))
  | Raise x => ∃ e, x = OSError e (SysMakedirs p) ∧ raised w' = raised w ++ [SysMakedirs p]
  end.
Proof.
  unfold makedirs, os_error. intros H.
  destruct (refuses env _).
  { simplify_eq. simpl. split; [apply grows_refl|eauto]. }
  destruct (makedirs_rev _ _ _ _) as [e m'] eqn:Hm.
  apply makedirs_rev_inv in Hm as [G D]. rewrite rev_involutive in G, D.
  destruct e; simplify_eq; simpl; (split; [done|]); [eauto|].
  split; [done|]. destruct D as [? ->]; eauto.
Qed.

Lemma mkstemp_go_inv names dir pre suf m file m' :
  mkstemp_go env names dir pre suf m = inr (file, m') →
  ∃ n perm, file = join dir (pre +:+ n +:+ suf)
            ∧ m !! place env file = None
            ∧ m' = <[place env file := File "" perm]> m.
Proof.
  induction names as [|n names IH]; intros H; [done|].
  cbn [mkstemp_go] in H.
  destruct (stat m (place env (join dir (pre +:+ n +:+ suf)))) eqn:Hs; [eauto|].
  apply stat_none in Hs as [Hs _].
  repeat case_match; simplify_eq. eauto 6.
Qed.

Lemma mkstemp_inv dir pre suf w r w' :
  mkstemp env dir pre suf w = (r, w') →
  match r with
  | Ok file =>
      raised w' = raised w ∧
      ∃ n perm, file = join dir (pre +:+ n +:+ suf)
                ∧ fs w !! place env file = None
                ∧ fs w' = <[place env file := File "" perm]> (fs w)
  | Raise x =>
      ∃ e, x = OSError e (SysMkstemp dir)
           ∧ raised w' = raised w ++ [SysMkstemp dir] ∧ fs w' = fs w
  end.
Proof.
  unfold mkstemp, os_error. intros H.
  destruct (refuses env _); [simplify_eq; simpl; eauto|].
  destruct (mkstemp_go _ _ _ _ _ _) as [e|[file m']] eqn:Hg; simplify_eq; simpl; [eauto|].
  split; [done|]. by apply mkstemp_go_inv in Hg.
Qed.

Lemma write_inv p text w r w' :
  write env p text w = (r, w') →
  match r with
  | Ok _ =>
      raised w' = raised w ∧
      ∃ d perm, fs w !! place env p = Some (File d perm)
                ∧ fs w' = <[place env p := File text perm]> (fs w)
  | Raise x =>
      ∃ e, x = OSError e (SysWrite p) ∧ raised w' = raised w ++ [SysWrite p]
           ∧ ∀ k, k ≠ place env p → fs w' !! k = fs w !! k
  end.
Proof.
  unfold write, os_error. intros H.
  destruct (stat (fs w) (place env p)) as [[d perm|perm]|] eqn:Hs.
  - apply stat_file in Hs. destruct (refuses env _); simplify_eq; simpl.
    + eexists. repeat split. intros k Hk. by rewrite lookup_insert_ne.
    + eauto.
  - simplify_eq. simpl. eauto.
  - simplify_eq. simpl. eauto.
Qed.

Lemma rename_inv src dst w r w' :
  rename env src dst w = (r, w') →
  match r with
  | Ok _ =>
      raised w' = raised w ∧
      ∃ d perm, fs w !! place env src = Some (File d perm)
                ∧ fs w' = <[place env dst := File d perm]> (delete (place env src) (fs w))
  | Raise x =>
      ∃ e, x = OSError e (SysRename src dst)
           ∧ raised w' = raised w ++ [SysRename src dst] ∧ fs w' = fs w
  end.
Proof.
  unfold rename, os_error. intros H.
  destruct (refuses env _); [simplify_eq; simpl; eauto|].
  destruct (stat (fs w) (place env src)) as [[d perm|perm]|] eqn:Hs;
    [apply stat_file in Hs| |]; repeat case_match; simplify_eq; simpl; eauto 6.
Qed.

Lemma chmod_inv p mode w r w' :
  chmod env p mode w = (r, w') →
  match r with
  | Ok _ =>
      raised w' = raised w ∧
      fs w' = alter (λ n, match n with
                          | File d _ => File d mode
                          | Dir _ => Dir mode
                          end) (place env p) (fs w)
  | Raise x =>
      ∃ e, x = OSError e (SysChmod p)
           ∧ raised w' = raised w ++ [SysChmod p] ∧ fs w' = fs w
           ∧ (e = EIO ∨ stat (fs w) (place env p) = None)
  end.
Proof.
  unfold chmod, os_error. intros H.
  destruct (refuses env _); [simplify_eq; simpl; eauto 6|].
  destruct (stat (fs w) (place env p)) eqn:Hs; simplify_eq; simpl; eauto 6.
Qed.

Lemma unlink_inv p w r w' :
  unlink env p w = (r, w') →
  match r with
  | Ok _ =>
      raised w' = raised w ∧ refuses env (SysUnlink p) = false ∧
      (∃ d perm, fs w !! place env p = Some (File d perm))
      ∧ fs w' = delete (place env p) (fs w)
  | Raise x =>
      ∃ e, x = OSError e (SysUnlink p)
           ∧ raised w' = raised w ++ [SysUnlink p] ∧ fs w' = fs w
           ∧ (refuses env (SysUnlink p) = false →
              ∀ d perm, stat (fs w) (place env p) ≠ Some (File d perm))
  end.
Proof.
  unfold unlink, os_error. intros H.
  destruct (refuses env _); [simplify_eq; simpl; eauto 6|].
  destruct (stat (fs w) (place env p)) as [[d perm|perm]|] eqn:Hs;
    simplify_eq; simpl.
  - apply stat_file in Hs. eauto 6.
  - eexists. repeat split. congruence.
  - eexists. repeat split. congruence.
Qed.

Lemma has_entries_false m k :
  has_entries m k = false ↔ ∀ k', is_Some (m !! k') → k' ≠ [] → parent k' ≠ k.
Proof.
  unfold has_entries. rewrite bool_decide_eq_false.
  rewrite map_Exists_lookup. split.
  - intros H k' [n Hn] Hk' Hp. apply H. exists k', n. done.
  - intros H (k' & n & Hn & Hk' & Hp). by apply (H k').
Qed.

Lemma has_entries_true m k k' :
  is_Some (m !! k') → k' ≠ [] → parent k' = k → has_entries m k = true.
Proof.
  intros [n Hn] Hk' Hp. unfold has_entries. rewrite bool_decide_eq_true.
  rewrite map_Exists_lookup. by exists k', n.
Qed.

Lemma rmdir_inv p w r w' :
  rmdir env p w = (r, w') →
  match r with
  | Ok _ =>
      raised w' = raised w ∧ has_entries (fs w) (place env p) = false
      ∧ fs w' = delete (place env p) (fs w)
  | Raise x =>
      ∃ e, x = OSError e (SysRmdir p)
           ∧ raised w' = raised w ++ [SysRmdir p] ∧ fs w' = fs w
           ∧ (refuses env (SysRmdir p) = true
              ∨ place env p = []
              ∨ (∀ perm, stat (fs w) (place env p) ≠ Some (Dir perm))
              ∨ has_entries (fs w) (place env p) = true)
  end.
Proof.
  unfold rmdir, os_error. intros H.
  destruct (refuses env _) eqn:Hr.
  { simplify_eq. simpl. eexists. repeat split; auto. }
  destruct (place env p) as [|a k] eqn:Hk.
  { destruct (stat _ _) as [[]|]; simplify_eq; simpl; eexists; repeat split; auto. }
  destruct (stat _ _) as [[]|] eqn:Hs; simplify_eq; simpl.
  - eexists. repeat split. right; right; left. congruence.
  - destruct (has_entries _ _) eqn:Hh; simplify_eq; simpl.
    + eexists. repeat split. auto.
    + by repeat split.
  - eexists. repeat split. right; right; left. congruence.
Qed.

Lemma read_text_inv p w r w' :
  read_text env p w = (r, w') →
  fs w' = fs w ∧
  match r with
  | Ok text =>
      w' = w ∧ refuses env (SysOpen p) = false ∧
      ∃ d perm, fs w !! place env p = Some (File d perm)
                ∧ text = Text.universal_newlines d
  | Raise x =>
      ∃ e, x = OSError e (SysOpen p) ∧ raised w' = raised w ++ [SysOpen p]
  end.
Proof.
  unfold read_text, os_error. intros H.
  destruct (refuses env _); [simplify_eq; simpl; eauto|].
  destruct (stat (fs w) (place env p)) as [[d perm|perm]|] eqn:Hs;
    simplify_eq; simpl; eauto.
  apply stat_file in Hs. eauto 8.
Qed.

End Calls.
End OSFacts.

(** ** What each function of the module does *)

Module EngineFacts.
Import Path OS OSFacts Engine.

Lemma bind_inv {A B : Type} (m : M A) (k : A → M B) w r w' :
  bind m k w = (r, w') →
  (∃ a w1, m w = (Ok a, w1) ∧ k a w1 = (r, w'))
  ∨ (∃ x, m w = (Raise x, w') ∧ r = Raise x).
Proof.
  unfold bind. destruct (m w) as [[a|x] w1]; intros H; [left|right]; simplify_eq; eauto.
Qed.

Lemma try_except_inv {A : Type} (body : M A) (handler : exn → M A) w r w' :
  try_except body handler w = (r, w') →
  (∃ a, body w = (Ok a, w') ∧ r = Ok a)
  ∨ (∃ x w1, body w = (Raise x, w1) ∧ handler x w1 = (r, w')).
Proof.
  unfold try_except. destruct (body w) as [[a|x] w1]; intros H; [left|right]; simplify_eq; eauto.
Qed.

Lemma fragment_file_last d r :
  Text.last_char (fragment_file d r) = Some "t"%char.
Proof.
  unfold fragment_file. rewrite PathFacts.last_char_join.
  - by rewrite PathFacts.last_char_app.
  - by apply PathFacts.app_nonempty.
Qed.

Lemma temp_file_last d r n :
  Text.last_char (temp_file d r n) = Some "p"%char.
Proof.
  unfold temp_file. rewrite PathFacts.last_char_join.
  - rewrite PathFacts.last_char_app; [|by apply PathFacts.app_nonempty].
    by rewrite PathFacts.last_char_app.
  - apply PathFacts.app_nonempty. by apply PathFacts.app_nonempty.
Qed.

Section Host.
Variable env : environment.

(** The fragment and the temporary file are different entries. *)
Lemma fragment_temp_differ d r n :
  place env (fragment_file d r) ≠ place env (temp_file d r n).
Proof.
  unfold place. eapply PathFacts.resolve_differ;
    [apply fragment_file_last | apply temp_file_last | done..].
Qed.

Lemma fragment_nonroot d r : place env (fragment_file d r) ≠ [].
Proof.
  unfold place. eapply PathFacts.resolve_nonroot; [apply fragment_file_last|done..].
Qed.

Lemma ensure_staging_directory_inv n b w r w' :
  ensure_staging_directory env n b w = (r, w') →
  grows (place env (join b n)) (fs w) (fs w') ∧
  match r with
  | Ok d =>
      d = join b n ∧ raised w' = raised w
      ∧ is_Some (stat (fs w') (place env (join b n)))
      ∧ (is_Some (stat (fs w) (place env (join b n))) → w' = w)
  | Raise x =>
      ∃ e, x = OSError e (SysMakedirs (join b n))
           ∧ raised w' = raised w ++ [SysMakedirs (join b n)]
  end.
Proof.
  unfold ensure_staging_directory, bind, exists_, ret. intros H.
  case_bool_decide as Hd; simpl in H.
  - simplify_eq. split; [apply grows_refl|done].
  - destruct (makedirs env _ _ w) as [[[]|x] w1] eqn:Hm;
      apply makedirs_inv in Hm as [G Hm]; simplify_eq; [|done].
    split; [done|]. destruct Hm as [? ?]. done.
Qed.

Lemma fragment_exists_and_unchanged_inv d c md r w res w' :
  fragment_exists_and_unchanged env d c md r w = (res, w') →
  fs w' = fs w ∧
  ∃ b, res = Ok b ∧
    if b then
      w' = w ∧ ∃ dt perm, fs w !! place env (fragment_file d r) = Some (File dt perm)
                          ∧ Text.universal_newlines dt = stored_form md c
    else
      (w' = w ∧ ∀ dt perm, stat (fs w) (place env (fragment_file d r)) = Some (File dt perm) →
                           refuses env (SysOpen (fragment_file d r)) = false →
                           Text.universal_newlines dt ≠ stored_form md c)
      ∨ (is_Some (stat (fs w) (place env (fragment_file d r)))
         ∧ raised w' = raised w ++ [SysOpen (fragment_file d r)]).
Proof.
  unfold fragment_exists_and_unchanged, bind, exists_, ret, try_except. intros H.
  case_bool_decide as Hd; simpl in H.
  - destruct (read_text env _ w) as [[text|x] w1] eqn:Hr;
      apply read_text_inv in Hr as [Hfs Hr]; simplify_eq.
    + destruct Hr as (-> & Hnr & dt & perm & Hf & ->). split; [done|].
      eexists. split; [done|]. case_bool_decide as Heq.
      * split; [done|]. eauto.
      * left. split; [done|]. intros dt' perm' Hf' _.
        apply stat_file in Hf'. congruence.
    + destruct Hr as (e & -> & Hr). split; [done|]. exists false. split; [done|].
      right. done.
  - simplify_eq. split; [done|]. exists false. split; [done|]. left. split; [done|].
    intros dt perm Hs. rewrite Hs in Hd. destruct Hd. eauto.
Qed.

(** When the fragment is there and the host lets it be read, the
    answer is the comparison of what is read with the stored form. *)
Lemma fragment_exists_and_unchanged_reads d c md r w dt perm :
  fs w !! place env (fragment_file d r) = Some (File dt perm) →
  refuses env (SysOpen (fragment_file d r)) = false →
  fragment_exists_and_unchanged env d c md r w
  = (Ok (bool_decide (Text.universal_newlines dt = stored_form md c)), w).
Proof.
  intros Hfile Hread.
  unfold fragment_exists_and_unchanged, bind at 1, exists_ at 1.
  rewrite bool_decide_eq_true_2
    by (rewrite stat_lookup by apply fragment_nonroot; rewrite Hfile; eauto).
  simpl. unfold try_except, bind at 1, read_text. rewrite Hread.
  rewrite stat_lookup by apply fragment_nonroot. rewrite Hfile. done.
Qed.

(** The answer is [True] only when the read went through. *)
Lemma fragment_exists_and_unchanged_true d c md r w w' :
  fragment_exists_and_unchanged env d c md r w = (Ok true, w') →
  refuses env (SysOpen (fragment_file d r)) = false.
Proof.
  unfold fragment_exists_and_unchanged, bind, exists_, ret, try_except. intros H.
  case_bool_decide as Hd; simpl in H; [|done].
  destruct (read_text env _ w) as [[text|x] w1] eqn:Hr;
    apply read_text_inv in Hr as [_ Hr]; [|done].
  by destruct Hr as (_ & ? & _).
Qed.

Lemma cleanup_inv (A : Type) tp x w1 (res : res A) w' :
  (try_except (unlink env tp) (λ _, ret ());; throw x) w1 = (res, w') →
  res = Raise x ∧
  ((raised w' = raised w1 ∧ fs w' = delete (place env tp) (fs w1)
    ∧ is_Some (fs w1 !! place env tp))
   ∨ (raised w' = raised w1 ++ [SysUnlink tp] ∧ fs w' = fs w1)).
Proof.
  intros H. apply bind_inv in H as [([] & w2 & Hu & H)|(x' & Hu & ->)].
  - unfold throw in H. simplify_eq. split; [done|].
    apply try_except_inv in Hu as [([] & Hu & _)|(x' & w3 & Hu & Hh)];
      apply unlink_inv in Hu.
    + left. destruct Hu as (? & _ & (dt & perm & Hf) & ?). rewrite Hf. eauto.
    + right. unfold ret in Hh. simplify_eq. destruct Hu as (e & _ & ? & ? & _). done.
  - apply try_except_inv in Hu as [(a & Hu & ?)|(x'' & w3 & Hu & Hh)]; [done|].
    unfold ret in Hh. simplify_eq.
Qed.

Lemma write_fragment_inv d c md r w res w' :
  write_fragment env d c md r w = (res, w') →
  let fp := fragment_file d r in
  match res with
  | Ok p => p = fp ∧ raised w' = raised w
            ∧ fs w' = <[place env fp := File (stored_form md c) o644]> (fs w)
  | Raise x =>
      (∃ e, x = OSError e (SysMkstemp d)
            ∧ raised w' = raised w ++ [SysMkstemp d] ∧ fs w' = fs w)
      ∨ ∃ n e call cleanup,
          let tp := temp_file d r n in
          x = OSError e call
          ∧ fs w !! place env tp = None
          ∧ raised w' = raised w ++ call :: cleanup
          ∧ (cleanup = [] ∨ cleanup = [SysUnlink tp])
          ∧ (((call = SysWrite tp ∨ call = SysRename tp fp)
              ∧ (∀ k, k ≠ place env tp → fs w' !! k = fs w !! k)
              ∧ (cleanup = [] → fs w' = fs w))
             ∨ (call = SysChmod fp ∧ cleanup = [SysUnlink tp]
                ∧ ∃ perm, fs w' = <[place env fp := File (stored_form md c) perm]> (fs w)))
  end.
Proof.
  intros H fp. unfold write_fragment in H.
  apply bind_inv in H as [(tp & w1 & Hmk & H)|(x & Hmk & ->)];
    apply mkstemp_inv in Hmk; [|left; done].
  destruct Hmk as (Hr1 & n & perm0 & Htp & Hfree & Hfs1).
  change (join d (("." +:+ r +:+ "_") +:+ n +:+ ".tmp")) with (temp_file d r n) in Htp.
  subst tp. fold fp in H.
  pose proof (fragment_temp_differ d r n) as Hne. fold fp in Hne.
  set (tp := temp_file d r n) in *. set (tk := place env tp) in *.
  set (fk := place env fp) in *.
  apply try_except_inv in H as [(p & H & ->)|(x & w2 & H & Hc)].
  - (* every step went through *)
    apply bind_inv in H as [([] & w2 & Hw & H)|(x & _ & ?)]; [|done].
    apply bind_inv in H as [([] & w3 & Hrn & H)|(x & _ & ?)]; [|done].
    apply bind_inv in H as [([] & w4 & Hch & H)|(x & _ & ?)]; [|done].
    unfold ret in H. simplify_eq.
    apply write_inv in Hw as (Hr2 & dt & perm & Hf & Hfs2).
    apply rename_inv in Hrn as (Hr3 & dt' & perm' & Hf' & Hfs3).
    apply chmod_inv in Hch as (Hr4 & Hfs4).
    fold tk in Hf, Hfs2, Hf', Hfs3. fold fk in Hfs3, Hfs4.
    split; [done|]. split; [congruence|].
    rewrite Hfs4, Hfs3, Hfs2, Hfs1. rewrite Hfs2 in Hf'.
    rewrite lookup_insert_eq in Hf'. simplify_eq.
    rewrite alter_insert_eq, !delete_insert_eq, delete_id by done. done.
  - (* some step raised; the handler ran *)
    apply cleanup_inv in Hc as [-> Hc]. right. exists n.
    assert (∀ w2 call,
      raised w2 = raised w ++ [call] →
      (∀ k, k ≠ tk → fs w2 !! k = fs w !! k) →
      (raised w' = raised w2 ∧ fs w' = delete tk (fs w2) ∧ is_Some (fs w2 !! tk)
       ∨ raised w' = raised w2 ++ [SysUnlink tp] ∧ fs w' = fs w2) →
      ∃ cleanup, raised w' = raised w ++ call :: cleanup
        ∧ (cleanup = [] ∨ cleanup = [SysUnlink tp])
        ∧ (∀ k, k ≠ tk → fs w' !! k = fs w !! k)
        ∧ (cleanup = [] → fs w' = fs w)) as Kept.
    { clear -Hfree. intros w2 call Hr Hk [(Hr' & Hfs & _)|(Hr' & Hfs)].
      - exists []. rewrite Hr', Hr. split; [done|]. split; [by left|].
        assert (∀ k, fs w' !! k = fs w !! k) as Hall.
        { intros k. rewrite Hfs. destruct (decide (k = tk)) as [->|Hne].
          - by rewrite lookup_delete_eq.
          - rewrite lookup_delete_ne by done. by apply Hk. }
        split; [done|]. intros _. by apply map_eq.
      - exists [SysUnlink tp]. rewrite Hr', Hr, <- app_assoc. split; [done|].
        split; [by right|]. rewrite Hfs. done. }
    apply bind_inv in H as [([] & w3 & Hw & H)|(x' & Hw & ?)]; apply write_inv in Hw.
    2:{ (* the write *)
      simplify_eq. destruct Hw as (e & -> & Hr2 & Hfs2).
      destruct (Kept w2 (SysWrite tp)) as (cleanup & ? & ? & ? & ?); [congruence| |done|].
      { intros k Hk. rewrite Hfs2, Hfs1 by done. by rewrite lookup_insert_ne. }
      exists e, (SysWrite tp), cleanup. simpl. repeat split; [done..|]. left. auto. }
    destruct Hw as (Hr2 & dt & perm & Hf & Hfs2). fold tk in Hf, Hfs2.
    apply bind_inv in H as [([] & w4 & Hrn & H)|(x' & Hrn & ?)]; apply rename_inv in Hrn.
    2:{ (* the rename *)
      simplify_eq. destruct Hrn as (e & -> & Hr3 & Hfs3).
      destruct (Kept w2 (SysRename tp fp)) as (cleanup & ? & ? & ? & ?); [congruence| |done|].
      { intros k Hk. rewrite Hfs3, Hfs2, Hfs1. by rewrite !lookup_insert_ne. }
      exists e, (SysRename tp fp), cleanup. simpl. repeat split; [done..|]. left. auto. }
    destruct Hrn as (Hr3 & dt' & perm' & Hf' & Hfs3). fold tk in Hf', Hfs3. fold fk in Hfs3.
    rewrite Hfs2, lookup_insert_eq in Hf'. simplify_eq.
    assert (fs w4 = <[fk := File (stored_form md c) perm']> (fs w)) as Hfs4.
    { rewrite Hfs3, Hfs2, Hfs1. by rewrite !delete_insert_eq, delete_id. }
    apply bind_inv in H as [([] & w5 & Hch & H)|(x' & Hch & ?)]; [by unfold ret in H|].
    (* the chmod, after the rename *)
    apply chmod_inv in Hch as (e & -> & Hr4 & Hfs5 & _). simplify_eq.
    exists e, (SysChmod fp), [SysUnlink tp]. simpl.
    assert (fs w2 !! tk = None) as Hgone.
    { rewrite Hfs5, Hfs4. by rewrite lookup_insert_ne. }
    destruct Hc as [(_ & _ & [? Hin])|[Hr5 Hfs6]]; [fold tk in Hin; congruence|].
    repeat split; [done| |by right|].
    { rewrite Hr5, Hr4, Hr3, Hr2, Hr1, <- app_assoc. done. }
    right. repeat split. exists perm'. congruence.
Qed.

Lemma remove_fragment_inv d r w res w' :
  remove_fragment env d r w = (res, w') →
  let fk := place env (fragment_file d r) in
  match res with
  | Ok false => w' = w ∧ stat (fs w) fk = None
  | Ok true =>
      refuses env (SysUnlink (fragment_file d r)) = false
      ∧ (∃ dt perm, fs w !! fk = Some (File dt perm))
      ∧ ((raised w' = raised w
          ∧ has_entries (delete fk (fs w)) (place env d) = false
          ∧ fs w' = delete (place env d) (delete fk (fs w)))
         ∨ (raised w' = raised w ++ [SysRmdir d]
            ∧ fs w' = delete fk (fs w)
            ∧ (refuses env (SysRmdir d) = true
               ∨ place env d = []
               ∨ (∀ perm, stat (delete fk (fs w)) (place env d) ≠ Some (Dir perm))
               ∨ has_entries (delete fk (fs w)) (place env d) = true)))
  | Raise x =>
      ∃ e, x = OSError e (SysUnlink (fragment_file d r))
           ∧ raised w' = raised w ++ [SysUnlink (fragment_file d r)]
           ∧ fs w' = fs w
           ∧ is_Some (stat (fs w) fk)
           ∧ (refuses env (SysUnlink (fragment_file d r)) = false →
              ∀ dt perm, stat (fs w) fk ≠ Some (File dt perm))
  end.
Proof.
  intros H fk. unfold remove_fragment in H.
  apply bind_inv in H as [(there & w1 & He & H)|(x & He & _)]; [|done].
  unfold exists_ in He. simplify_eq. fold fk in H.
  case_bool_decide as Hthere.
  2:{ unfold ret in H. simplify_eq. split; [done|].
      destruct (stat (fs w') fk) eqn:Hs; [|done]. destruct Hthere. eauto. }
  apply bind_inv in H as [([] & w2 & Hu & H)|(x & Hu & ->)]; apply unlink_inv in Hu.
  2:{ destruct Hu as (e & -> & ? & ? & ?). eauto 8. }
  destruct Hu as (Hr2 & Hnr & Hf & Hfs2). fold fk in Hf, Hfs2.
  apply bind_inv in H as [([] & w3 & Hrd & H)|(x & Hrd & ->)].
  2:{ apply try_except_inv in Hrd as [(? & _ & ?)|(? & ? & _ & Hh)]; [done|].
      by unfold ret in Hh. }
  unfold ret in H. simplify_eq. split; [done|]. split; [done|].
  apply try_except_inv in Hrd as [([] & Hrd & _)|(x & w3 & Hrd & Hh)];
    apply rmdir_inv in Hrd.
  - left. destruct Hrd as (? & ? & ?). rewrite <- Hfs2. split; [congruence|]. done.
  - right. unfold ret in Hh. simplify_eq.
    destruct Hrd as (e & _ & ? & ? & ?). rewrite <- Hfs2.
    split; [congruence|]. done.
Qed.

Lemma manage_present_inv p role w res w' :
  state p = "present" →
  manage env p false role w = (res, w') →
  ∃ r1 w1,
    ensure_staging_directory env (name p) (staging_base_dir p) w = (r1, w1) ∧
    match r1 with
    | Raise x => res = Raise x ∧ w' = w1
    | Ok d =>
        ∃ r2 w2,
          fragment_exists_and_unchanged env d (fragment p) (mode p) role w1 = (r2, w2) ∧
          match r2 with
          | Raise x => res = Raise x ∧ w' = w2
          | Ok true =>
              w' = w2 ∧ ∃ r, res = Ok r ∧ changed r = false
                             ∧ fragment_path r = fragment_file d role
          | Ok false =>
              ∃ r3, write_fragment env d (fragment p) (mode p) role w2 = (r3, w') ∧
                    match r3 with
                    | Raise x => res = Raise x
                    | Ok path => ∃ r, res = Ok r ∧ changed r = true
                                      ∧ fragment_path r = path
                    end
          end
    end.
Proof.
  intros Hst H. unfold manage in H. rewrite Hst in H. simpl in H.
  apply bind_inv in H as [(d & w1 & He & H)|(x & He & ->)];
    [|exists (Raise x), w'; done].
  exists (Ok d), w1. split; [done|].
  apply bind_inv in H as [(b & w2 & Hf & H)|(x & Hf & ->)];
    [|exists (Raise x), w'; done].
  exists (Ok b), w2. split; [done|].
  destruct b.
  - unfold ret in H. simplify_eq. eauto.
  - apply bind_inv in H as [(path & w3 & Hw & H)|(x & Hw & ->)].
    + unfold ret in H. simplify_eq. exists (Ok path). eauto.
    + exists (Raise x). done.
Qed.

Lemma manage_absent_inv p role w res w' :
  state p = "absent" →
  manage env p false role w = (res, w') →
  ∃ r1 w1,
    ensure_staging_directory env (name p) (staging_base_dir p) w = (r1, w1) ∧
    match r1 with
    | Raise x => res = Raise x ∧ w' = w1
    | Ok d =>
        ∃ r2, remove_fragment env d role w1 = (r2, w') ∧
              match r2 with
              | Raise x => res = Raise x
              | Ok b => ∃ r, res = Ok r ∧ changed r = b
              end
    end.
Proof.
  intros Hst H. unfold manage in H. rewrite Hst in H. simpl in H.
  apply bind_inv in H as [(d & w1 & He & H)|(x & He & ->)];
    [|exists (Raise x), w'; done].
  exists (Ok d), w1. split; [done|].
  apply bind_inv in H as [(b & w2 & Hf & H)|(x & Hf & ->)].
  - exists (Ok b). destruct b; unfold ret in H; simplify_eq; eauto.
  - exists (Raise x). done.
Qed.

(** In check mode nothing is called that can change the world or raise. *)
Lemma manage_check_mode p role w :
  ∃ r, manage env p true role w = (Ok r, w) ∧
       (state p = "present" → changed r = true) ∧
       (state p = "absent" →
        changed r = bool_decide (is_Some (stat (fs w)
          (place env (fragment_file (join (staging_base_dir p) (name p)) role))))).
Proof.
  unfold manage, bind, ret, exists_. simpl.
  case_bool_decide as Hp; [|case_bool_decide as Ha].
  - eexists. split; [done|]. split; [done|]. intros Ha. by rewrite Ha in Hp.
  - case_bool_decide; eexists; (split; [done|]); (split; [done|]); done.
  - eexists. split; [done|]. done.
Qed.

End Host.
End EngineFacts.

(** ** Names as path segments *)

Module NameFacts.
Import Text Path Shape.

Lemma append_assoc (a b c : string) : (a +:+ b) +:+ c = a +:+ (b +:+ c).
Proof.
  induction a as [|x a IH]; [done|].
  change (String x ((a +:+ b) +:+ c) = String x (a +:+ (b +:+ c))). by rewrite IH.
Qed.

Lemma append_nil_r (a : string) : a +:+ "" = a.
Proof.
  induction a as [|x a IH]; [done|].
  change (String x (a +:+ "") = String x a). by rewrite IH.
Qed.

Lemma length_append (a b : string) :
  String.length (a +:+ b) = String.length a + String.length b.
Proof.
  induction a as [|x a IH]; [done|].
  change (S (String.length (a +:+ b)) = S (String.length a) + String.length b).
  by rewrite IH.
Qed.

(** Cancelling a common ending. *)
Lemma append_inj_l (a b c : string) : a +:+ c = b +:+ c → a = b.
Proof.
  revert b. induction a as [|x a IH]; intros [|y b] H; [done| | |].
  - exfalso. apply (f_equal String.length) in H.
    change (String.length c = S (String.length (b +:+ c))) in H.
    rewrite length_append in H. lia.
  - exfalso. apply (f_equal String.length) in H.
    change (S (String.length (a +:+ c)) = String.length c) in H.
    rewrite length_append in H. lia.
  - change (String x (a +:+ c) = String y (b +:+ c)) in H.
    injection H as -> H. by rewrite (IH b H).
Qed.

Lemma contains_app (c : ascii) (a b : string) :
  contains c (a +:+ b) = contains c a || contains c b.
Proof.
  induction a as [|x a IH]; [done|].
  change (bool_decide (x = c) || contains c (a +:+ b)
          = (bool_decide (x = c) || contains c a) || contains c b).
  by rewrite IH, orb_assoc.
Qed.

Lemma last_char_snoc (s : string) (c : ascii) :
  last_char s = Some c → ∃ s', s = s' +:+ String c "".
Proof.
  induction s as [|x s IH]; [done|]. destruct s as [|y s].
  - intros [= ->]. by exists "".
  - intros H. destruct (IH H) as [s' Hs']. exists (String x s').
    change (String x (String y s) = String x (s' +:+ String c "")). by rewrite <- Hs'.
Qed.

Lemma startswith_app (c : ascii) (a b : string) :
  a ≠ "" → startswith c (a +:+ b) = startswith c a.
Proof. by destruct a. Qed.

Lemma segments_go_plain (x cur : string) :
  contains slash x = false → segments_go cur x = [cur +:+ x].
Proof.
  revert cur. induction x as [|c x IH]; intros cur H; simpl.
  - by rewrite append_nil_r.
  - simpl in H. apply orb_false_iff in H as [Hc Hx].
    rewrite Hc. rewrite IH by done. by rewrite append_assoc.
Qed.

Lemma segments_go_slash (a b cur : string) :
  segments_go cur (a +:+ String slash b) = segments_go cur a ++ segments_go "" b.
Proof.
  revert cur. induction a as [|c a IH]; intros cur.
  - change (segments_go cur (String slash b) = [cur] ++ segments_go "" b).
    cbn [segments_go]. by rewrite bool_decide_eq_true_2.
  - change (segments_go cur (String c (a +:+ String slash b))
            = segments_go cur (String c a) ++ segments_go "" b).
    cbn [segments_go]. case_bool_decide; rewrite IH; done.
Qed.

Lemma walk_plain (acc : list string) (x : string) :
  plain x → walk acc x = acc ++ [x].
Proof.
  intros (_ & H0 & H1 & H2). unfold walk. by rewrite !bool_decide_eq_false_2.
Qed.

Lemma resolve_empty (cwd : list string) : resolve cwd "" = cwd.
Proof.
  unfold resolve, segments. cbn [segments_go startswith fold_left].
  unfold walk. by rewrite bool_decide_eq_true_2.
Qed.

(** Joining a plain name to a directory names the entry of that name in
    that directory. *)
Lemma resolve_join_plain (cwd : list string) (d x : string) :
  plain x → resolve cwd (join d x) = resolve cwd d ++ [x].
Proof.
  intros Hx. pose proof Hx as (Hs & H0 & _).
  assert (startswith slash x = false) as Hst.
  { destruct x as [|c x]; [done|]. cbn in Hs |- *. by apply orb_false_iff in Hs as [-> _]. }
  unfold join. rewrite Hst.
  destruct d as [|c d].
  { change (resolve cwd x = resolve cwd "" ++ [x]). rewrite resolve_empty.
    unfold resolve, segments. rewrite Hst, segments_go_plain by done.
    cbn [fold_left]. by rewrite walk_plain. }
  set (dir := String c d).
  assert (dir ≠ "") as Hd by done.
  change (negb (truthy dir)) with false. cbn [orb].
  destruct (endswith slash dir) eqn:He.
  - apply bool_decide_eq_true in He. apply last_char_snoc in He as [d' Hd'].
    assert (dir +:+ x = d' +:+ String slash x) as ->.
    { by rewrite Hd', append_assoc. }
    assert (startswith slash (d' +:+ String slash x) = startswith slash dir) as Hsw.
    { rewrite Hd'. destruct d'; [|done].
      change (bool_decide (slash = slash) = bool_decide (slash = slash)). done. }
    unfold resolve, segments. rewrite Hsw, Hd', !segments_go_slash.
    rewrite (segments_go_plain x) by done. cbn [segments_go].
    rewrite !fold_left_app. cbn [fold_left]. rewrite walk_plain by done.
    unfold walk at 2. by rewrite bool_decide_eq_true_2.
  - change (dir +:+ "/" +:+ x) with (dir +:+ String slash x).
    unfold resolve, segments.
    rewrite segments_go_slash, startswith_app by done.
    rewrite (segments_go_plain x) by done.
    rewrite fold_left_app. cbn [fold_left]. by rewrite walk_plain.
Qed.

Lemma fragment_name_plain (role : string) :
  contains slash role = false → plain (role +:+ ".fragment").
Proof.
  intros H. split; [by rewrite contains_app, H|].
  assert (last_char (role +:+ ".fragment") = Some "t"%char) as Hl
    by by rewrite PathFacts.last_char_app.
  repeat split; intros E; by rewrite E in Hl.
Qed.

(** Reading in text mode gives back text that has no carriage return. *)
Lemma universal_newlines_plain (s : string) :
  contains CR s = false → universal_newlines s = s.
Proof.
  induction s as [|c s IH]; [done|]. simpl. intros H.
  apply orb_false_iff in H as [Hc Hs]. rewrite Hc. by rewrite IH.
Qed.

End NameFacts.

(** * The properties of the specification *)

Import Path OS OSFacts Engine EngineFacts.

(** ** Dry run *)

(** C1, as stated, fails.  With the nginx fragment already staged with
    exactly the bytes the task asks for, a real run reports
    [changed=false] and a dry run of the same task reports
    [changed=true]. *)
Lemma dry_run_present_disagrees :
  let w := Scenario.staged Scenario.nginx_stored in
  reported (run_module Scenario.quiet Scenario.nginx_present true w).1 = Some true
  ∧ reported (run_module Scenario.quiet Scenario.nginx_present false w).1 = Some false.
Proof. split; vm_compute; reflexivity. Qed.

(** C1, amended.  A dry run never fails and leaves the world exactly as
    it was.  For [absent] (and a fragment path that is not empty and has
    no ["."] or [".."] segment) it reports the [changed] value of any
    successful real run from the same state.  For [present] it always
    reports [changed=true].  A successful real run reports
    [changed=false] only if the fragment file is already there; when
    that file holds no carriage return, the real run reports
    [changed=false] exactly when the host lets the file be read and it
    holds exactly the bytes of the stored form, and agrees with the dry
    run otherwise. *)
Theorem dry_run_amended (env : environment) (p : params) (w : world) :
  let fp := fragment_file (Path.join (staging_base_dir p) (name p)) (contributor env p) in
  ∃ r,
    run_params env p true w = (ExitJson r, w)
    ∧ (state p = "absent" → Shape.literal fp = true →
       ∀ r' w', run_params env p false w = (ExitJson r', w') → changed r' = changed r)
    ∧ (state p = "present" →
       changed r = true ∧
       ∀ r' w', run_params env p false w = (ExitJson r', w') →
         (changed r' = false → ∃ dt perm, fs w !! place env fp = Some (File dt perm))
         ∧ (∀ dt perm,
              fs w !! place env fp = Some (File dt perm) →
              Shape.contains Text.CR dt = false →
              (changed r' = false
               ↔ refuses env (SysOpen fp) = false
                 ∧ dt = stored_form (mode p) (fragment p)))).
Proof.
  intros fp. set (fk := place env fp). unfold run_params.
  destruct (manage_check_mode env p (contributor env p) w) as (r & Hdry & Hpres & Habs).
  exists r. rewrite Hdry. split; [done|]. split.
  - (* absent *)
    intros Hst _ r' w' Hreal. rewrite (Habs Hst). fold fp fk.
    destruct (manage env p false _ w) as [[r0|x] w0] eqn:Hm; [|done]. simplify_eq.
    apply manage_absent_inv in Hm as (r1 & w1 & He & Hm); [|done].
    apply ensure_staging_directory_inv in He as [G He].
    destruct r1 as [d|x]; [|by destruct Hm].
    destruct He as (-> & _ & _ & _). destruct Hm as (r2 & Hrm & Hm).
    apply remove_fragment_inv in Hrm. fold fp fk in Hrm.
    destruct r2 as [b|x]; [|done].
    destruct (grows_stat _ _ _ fk G) as [Heq|(Hnone & perm & Hdir)]; destruct b;
      destruct Hm as (r3 & ? & Hb); simplify_eq; rewrite Hb.
    + destruct Hrm as (_ & (dt & perm & Hf) & _).
      symmetry. apply bool_decide_eq_true. rewrite <- Heq.
      unfold fk. rewrite stat_lookup by apply fragment_nonroot. fold fk. rewrite Hf. eauto.
    + destruct Hrm as [_ Hn]. symmetry. apply bool_decide_eq_false.
      rewrite <- Heq, Hn. by intros [? ?].
    + destruct Hrm as (_ & (dt & perm' & Hf) & _).
      unfold fk in Hdir. rewrite stat_lookup in Hdir by apply fragment_nonroot.
      fold fk in Hdir. congruence.
    + destruct Hrm as [_ Hn]. congruence.
  - (* present *)
    intros Hst. split; [by apply Hpres|]. intros r' w' Hreal.
    destruct (manage env p false _ w) as [[r0|x] w0] eqn:Hm; [|done]. simplify_eq.
    apply manage_present_inv in Hm as (r1 & w1 & He & Hm); [|done].
    apply ensure_staging_directory_inv in He as [G He].
    destruct r1 as [d|x]; [|by destruct Hm].
    destruct He as (-> & _ & _ & _). destruct Hm as (r2 & w2 & Hf & Hm).
    fold fp in Hf.
    (* what the comparison saw, when it answered [True] *)
    assert (changed r' = false →
            refuses env (SysOpen fp) = false
            ∧ ∃ dt perm, fs w !! fk = Some (File dt perm)
                         ∧ Text.universal_newlines dt = stored_form (mode p) (fragment p))
      as Hseen.
    { intros Hch. destruct r2 as [[|]|x]; [| |by destruct Hm].
      - split; [by apply fragment_exists_and_unchanged_true in Hf|].
        apply fragment_exists_and_unchanged_inv in Hf as (_ & b & Hb & Hf).
        injection Hb as <-. destruct Hf as (-> & dt & perm & Hfile & Hsame).
        fold fp fk in Hfile. exists dt, perm. split; [|done].
        destruct (G fk) as [<-|(_ & (perm' & Hdir) & _)]; [done|congruence].
      - destruct Hm as (r3 & _ & Hm). destruct r3; [|done].
        destruct Hm as (r4 & ? & ? & _). simplify_eq. congruence. }
    split.
    + intros Hch. destruct (Hseen Hch) as (_ & dt & perm & Hfile & _). eauto.
    + intros dt perm Hfile Hcr. split.
      * intros Hch. destruct (Hseen Hch) as (Hread & dt' & perm' & Hfile' & Hsame).
        split; [done|]. rewrite Hfile in Hfile'. injection Hfile' as <- <-.
        by rewrite <- Hsame, NameFacts.universal_newlines_plain.
      * intros (Hread & Hsame).
        assert (fs w1 !! fk = Some (File dt perm)) as Hfile1.
        { destruct (G fk) as [->|(Hnone & _)]; [done|congruence]. }
        rewrite (fragment_exists_and_unchanged_reads env _ _ _ _ w1 dt perm Hfile1 Hread)
          in Hf.
        rewrite bool_decide_eq_true_2 in Hf
          by by rewrite NameFacts.universal_newlines_plain.
        injection Hf as <- <-.
        destruct Hm as (_ & r3 & ? & Hc & _). by simplify_eq.
Qed.

(** ** Absent *)

(** C2 at its failing input: [absent] for a target with no staging
    directory and no fragment.  The run reports [changed=false], raises
    nothing, and leaves a staging directory that was not there before. *)
Theorem absent_missing_makes_directory :
  let w := Scenario.base_only in
  let out := run_module Scenario.quiet Scenario.nginx_absent false w in
  stat (fs w) Scenario.nginx_dir = None
  ∧ stat (fs w) Scenario.nginx_fragment = None
  ∧ reported out.1 = Some false
  ∧ raised out.2 = []
  ∧ stat (fs out.2) Scenario.nginx_dir = Some (Dir o755)
  ∧ (run_module Scenario.quiet Scenario.nginx_absent true w).2 = w.
Proof. repeat split; vm_compute; reflexivity. Qed.

(** X12.  What [absent] does in general when there is no fragment, for
    paths that are not empty and have no ["."] or [".."] segment: it
    reports [changed=false] and touches nothing that exists, but may
    have made the staging directory and its parents. *)
Lemma absent_missing_grows (env : environment) (p : params) (w : world) r w' :
  let d := Path.join (staging_base_dir p) (name p) in
  let fp := fragment_file d (contributor env p) in
  state p = "absent" →
  Shape.literal d = true →
  Shape.literal fp = true →
  stat (fs w) (place env fp) = None →
  run_params env p false w = (ExitJson r, w') →
  changed r = false ∧ raised w' = raised w ∧ grows (place env d) (fs w) (fs w').
Proof.
  intros d fp Hst _ _ Hmiss Hrun. subst d fp. unfold run_params in Hrun.
  destruct (manage env p false _ w) as [[r0|x] w0] eqn:Hm; [|done]. simplify_eq.
  apply manage_absent_inv in Hm as (r1 & w1 & He & Hm); [|done].
  apply ensure_staging_directory_inv in He as [G He].
  destruct r1 as [d|x]; [|by destruct Hm].
  destruct He as (-> & Hr1 & _ & _). destruct Hm as (r2 & Hrm & Hm).
  apply remove_fragment_inv in Hrm.
  destruct r2 as [[|]|x]; [| |done]; destruct Hm as (r3 & ? & Hb); simplify_eq.
  - destruct Hrm as (_ & (dt & perm & Hf) & _).
    destruct (G (place env (fragment_file (Path.join (staging_base_dir p) (name p))
                                         (contributor env p))))
      as [Heq|(_ & (perm' & Hdir) & _)]; [|congruence].
    apply stat_none in Hmiss as [? ?]. congruence.
  - destruct Hrm as [-> _]. done.
Qed.


(** ** Present *)

(** C3 at its failing input: content with a carriage return.  The file
    is read back in text mode, which turns ["\r\n"] into ["\n"], so the
    comparison with the stored form never succeeds: the second of two
    identical calls rewrites the file and reports [changed=true] again.
    The same translation makes a later call with ["\n"] in place of
    ["\r\n"] compare equal, so that whitespace difference forces no
    rewrite and the bytes on disk stay as they were. *)
Theorem present_twice_carriage_return :
  let first := run_module Scenario.quiet Scenario.nginx_present_crlf false Scenario.bare in
  let second := run_module Scenario.quiet Scenario.nginx_present_crlf false first.2 in
  let other := run_module Scenario.quiet Scenario.nginx_present false first.2 in
  stat (fs Scenario.bare) Scenario.nginx_fragment = None
  ∧ reported first.1 = Some true
  ∧ reported second.1 = Some true
  ∧ fs second.2 !! Scenario.nginx_fragment = fs first.2 !! Scenario.nginx_fragment
  ∧ reported other.1 = Some false
  ∧ fs other.2 !! Scenario.nginx_fragment
    = Some (File ("# Mode: enforce" +:+ Text.nl +:+ Scenario.nginx_rules_crlf) o644)
  ∧ Scenario.nginx_rules_crlf ≠ Scenario.nginx_rules.
Proof.
  repeat split; try (vm_compute; reflexivity).
  vm_compute. discriminate.
Qed.

(** For text that reading leaves as it is (no carriage return), the
    idempotence of C3 holds: after a [present] that wrote, the fragment
    holds the stored form, and the same call again reports
    [changed=false] and leaves the world exactly as it is.  The second
    call may run at another time and draw other temporary names; it must
    be able to read the fragment. *)
Lemma present_idempotent (env env' : environment) (p : params) (w : world) r w' :
  let d := Path.join (staging_base_dir p) (name p) in
  let fp := fragment_file d (contributor env p) in
  state p = "present" →
  cwd env' = cwd env →
  contributor env' p = contributor env p →
  Text.universal_newlines (stored_form (mode p) (fragment p))
    = stored_form (mode p) (fragment p) →
  refuses env' (SysOpen fp) = false →
  run_params env p false w = (ExitJson r, w') →
  changed r = true →
  fs w' !! place env fp = Some (File (stored_form (mode p) (fragment p)) o644)
  ∧ ∃ r', run_params env' p false w' = (ExitJson r', w')
          ∧ changed r' = false ∧ fragment_path r' = fp.
Proof.
  intros d fp Hst Hcwd Hrole Hplain Hread Hrun Hch.
  unfold run_params in Hrun.
  destruct (manage env p false _ w) as [[r0|x] w0] eqn:Hm; [|done]. simplify_eq.
  apply manage_present_inv in Hm as (r1 & w1 & He & Hm); [|done].
  apply ensure_staging_directory_inv in He as [G He].
  destruct r1 as [d'|x]; [|by destruct Hm].
  destruct He as (-> & _ & Hdir & _). destruct Hm as (r2 & w2 & Hf & Hm).
  apply fragment_exists_and_unchanged_inv in Hf as (Hfs2 & b & -> & _).
  destruct b; [destruct Hm as (_ & r3 & ? & ? & _); simplify_eq; congruence|].
  destruct Hm as (r3 & Hw & Hm). apply write_fragment_inv in Hw.
  destruct r3 as [path|x]; [|done]. destruct Hw as (-> & _ & Hfs').
  fold d in Hdir, Hfs'. fold fp in Hfs'.
  assert (fs w' !! place env fp = Some (File (stored_form (mode p) (fragment p)) o644))
    as Hfile by (rewrite Hfs'; apply lookup_insert_eq).
  split; [done|].
  assert (∀ q, place env' q = place env q) as Hplace
    by (intros q; unfold place; by rewrite Hcwd).
  assert (is_Some (stat (fs w') (place env d))) as Hdir'.
  { destruct (place env d) as [|a k] eqn:Hk; [by eexists|]. simpl in *.
    rewrite Hfs'. destruct (decide (place env fp = a :: k)) as [->|Hne].
    - rewrite lookup_insert_eq. eauto.
    - rewrite lookup_insert_ne by done. by rewrite Hfs2. }
  unfold run_params, manage. rewrite Hst. simpl.
  unfold bind at 1. unfold ensure_staging_directory, bind at 1, exists_ at 1.
  fold d. rewrite Hplace, (bool_decide_eq_true_2 _ Hdir'). simpl.
  unfold bind at 1, ret at 1. unfold bind at 1.
  unfold fragment_exists_and_unchanged, bind at 1, exists_ at 1.
  rewrite Hrole. fold fp. rewrite Hplace.
  rewrite bool_decide_eq_true_2
    by (rewrite stat_lookup by apply fragment_nonroot; rewrite Hfile; eauto).
  simpl. unfold try_except, bind at 1, read_text. rewrite Hread, Hplace.
  rewrite stat_lookup by apply fragment_nonroot. rewrite Hfile.
  unfold ret at 1. rewrite Hplain. rewrite bool_decide_eq_true_2 by done.
  unfold ret. eexists. split; [done|]. done.
Qed.

(** A change of mode alone forces a rewrite, and the first line of the
    file then names the new mode. *)
Example mode_change_rewrites :
  let w := Scenario.staged Scenario.nginx_older in
  let out := run_module Scenario.quiet Scenario.nginx_present false w in
  fs w !! Scenario.nginx_fragment
  = Some (File ("# Mode: complain" +:+ Text.nl +:+ Scenario.nginx_rules) o644)
  ∧ reported out.1 = Some true
  ∧ fs out.2 !! Scenario.nginx_fragment
    = Some (File ("# Mode: enforce" +:+ Text.nl +:+ Scenario.nginx_rules) o644).
Proof. repeat split; vm_compute; reflexivity. Qed.

(** C5, as stated, fails: a successful [present] does not always report
    [changed=true].  With the fragment already staged, the scenario's
    call succeeds and reports [changed=false]. *)
Lemma present_again_reports_unchanged :
  let w := Scenario.staged Scenario.nginx_stored in
  let out := run_module Scenario.quiet Scenario.nginx_present false w in
  failed out.1 = false ∧ reported out.1 = Some false ∧ out.2 = w.
Proof. repeat split; vm_compute; reflexivity. Qed.

(** C5, amended.  Every successful [present] that is not a dry run
    returns the path [baseDir/target/<contributor>.fragment].  When it
    reports [changed=true], the file there afterwards holds exactly
    ["# Mode: " + mode + "\n" + content], with mode 0644.  It reports
    [changed=false] only when the file was already there, and then
    leaves it as it was; a file without carriage returns then holds
    exactly that text. *)
Theorem present_stores_fragment (env : environment) (p : params) (w : world) r w' :
  let fp := fragment_file (Path.join (staging_base_dir p) (name p)) (contributor env p) in
  state p = "present" →
  run_params env p false w = (ExitJson r, w') →
  fragment_path r = fp
  ∧ (changed r = true →
     fs w' !! place env fp = Some (File (stored_form (mode p) (fragment p)) o644))
  ∧ (changed r = false →
     fs w' !! place env fp = fs w !! place env fp
     ∧ ∃ dt perm, fs w !! place env fp = Some (File dt perm)
                  ∧ (Shape.contains Text.CR dt = false →
                     dt = stored_form (mode p) (fragment p))).
Proof.
  intros fp Hst Hrun. unfold run_params in Hrun.
  destruct (manage env p false _ w) as [[r0|x] w0] eqn:Hm; [|done]. simplify_eq.
  apply manage_present_inv in Hm as (r1 & w1 & He & Hm); [|done].
  apply ensure_staging_directory_inv in He as [G He].
  destruct r1 as [d'|x]; [|by destruct Hm].
  destruct He as (-> & _ & _ & _). destruct Hm as (r2 & w2 & Hf & Hm).
  apply fragment_exists_and_unchanged_inv in Hf as (Hfs2 & b & -> & Hf).
  fold fp in Hf. destruct b.
  - destruct Hm as (-> & r3 & ? & Hc & Hp). simplify_eq.
    split; [done|]. split; [congruence|]. intros _.
    destruct Hf as (-> & dt & perm & Hfile & Hsame).
    destruct (G (place env fp)) as [Heq|(_ & (perm' & Hdir) & _)]; [|congruence].
    rewrite <- Heq. split; [done|]. exists dt, perm. split; [done|].
    intros Hcr. by rewrite <- Hsame, NameFacts.universal_newlines_plain.
  - destruct Hm as (r3 & Hw & Hm). apply write_fragment_inv in Hw.
    destruct r3 as [path|x]; [|done]. destruct Hw as (-> & _ & Hfs').
    destruct Hm as (r4 & ? & Hc & Hp). simplify_eq.
    split; [done|]. split; [|congruence]. intros _.
    rewrite Hfs'. apply lookup_insert_eq.
Qed.

(** The call of the specification's scenario, on an empty base
    directory. *)
Lemma present_stores_fragment_witness :
  let env := Scenario.quiet in
  let p := Scenario.nginx_params "present" in
  let out := run_params env p false Scenario.bare in
  let fp := fragment_file (Path.join (staging_base_dir p) (name p)) (contributor env p) in
  let r := {| changed := true;
              message := "Fragment for profile usr.sbin.nginx from role nginx_role has been created";
              fragment_path := "/etc/apparmor.d/roles/usr.sbin.nginx/nginx_role.fragment" |} in
  state p = "present"
  ∧ out = (ExitJson r, out.2)
  ∧ fragment_path r = fp
  ∧ fs out.2 !! place env fp = Some (File (stored_form (mode p) (fragment p)) o644).
Proof.
  intros env p out fp r.
  assert (out = (ExitJson r, out.2)) as Hrun by (vm_compute; reflexivity).
  split; [reflexivity|]. split; [exact Hrun|].
  pose proof (present_stores_fragment env p Scenario.bare r out.2 eq_refl Hrun)
    as (Hpath & Hwritten & _).
  split; [exact Hpath|]. exact (Hwritten eq_refl).
Defined.

(** The scenario in full: the path and the bytes. *)
Example present_nginx_scenario :
  let out := run_module Scenario.quiet Scenario.nginx_present false Scenario.bare in
  out.1 = ExitJson
            {| changed := true;
               message := "Fragment for profile usr.sbin.nginx from role nginx_role has been created";
               fragment_path := "/etc/apparmor.d/roles/usr.sbin.nginx/nginx_role.fragment" |}
  ∧ fs out.2 !! ["etc"; "apparmor.d"; "roles"; "usr.sbin.nginx"; "nginx_role.fragment"]
    = Some (File ("# Mode: enforce" +:+ Text.nl +:+ "/var/www/html/** r," +:+ Text.nl) o644)
  ∧ raised out.2 = [].
Proof. repeat split; vm_compute; reflexivity. Qed.

(** ** A failed write *)




(** ** Errors *)





(** The removal of the temporary file after a failed write: the host
    refuses the write and then the unlink.  The run fails with the
    error of the write; that of the unlink is not reported, and the
    temporary file stays. *)
Example cleanup_failure_is_not_reported :
  let env := Scenario.refusing Shape.no_write_no_unlink in
  let p := Scenario.nginx_params "present" in
  let tp := "/etc/apparmor.d/roles/usr.sbin.nginx/.nginx_role_abcd1234.tmp" in
  let out := run_params env p false Scenario.base_only in
  raised out.2 = [SysWrite tp; SysUnlink tp]
  ∧ (manage env p false "nginx_role" Scenario.base_only).1 = Raise (OSError EIO (SysWrite tp))
  ∧ failed out.1 = true
  ∧ fs out.2 !! (Scenario.nginx_dir ++ [".nginx_role_abcd1234.tmp"]) = Some (File "# M" o600)
  ∧ fs out.2 !! Scenario.nginx_fragment = None.
Proof. repeat split; vm_compute; reflexivity. Qed.

(** ** The contributor when none is given *)

(** C7, as stated, fails: the identity is made of the timestamp alone.
    Two callers that give no [role_name], at different instants of the
    same second, get the same identity and the same fragment file: the
    second overwrites what the first staged. *)
Lemma same_second_same_identity :
  let first := run_module Scenario.quiet Scenario.unnamed_first false Scenario.bare in
  let second := run_module Scenario.later Scenario.unnamed_second false first.2 in
  let shared := ["etc"; "apparmor.d"; "roles"; "usr.sbin.nginx"; "role_1700000000.fragment"] in
  clock Scenario.quiet ≠ clock Scenario.later
  ∧ detect_role_name Scenario.quiet = detect_role_name Scenario.later
  ∧ fs first.2 !! shared = Some (File Scenario.nginx_stored o644)
  ∧ fs second.2 !! shared
    = Some (File ("# Mode: enforce" +:+ Text.nl +:+ "/var/log/nginx/** w," +:+ Text.nl) o644).
Proof. repeat split; vm_compute; (reflexivity || discriminate). Qed.

(** C7, amended.  Without a [role_name] (or with an empty one) the
    contributor is ["role_"] followed by the whole seconds of the clock,
    and nothing else: two such identities differ exactly when the two
    clocks show different seconds. *)
Theorem detect_role_name_by_second :
  (∀ env p, Action.supplied (role_name p) = false →
            contributor env p = "role_" +:+ pretty (clock env `div` 1000000000)%N)
  ∧ (∀ env1 env2,
       detect_role_name env1 = detect_role_name env2
       ↔ (clock env1 `div` 1000000000 = clock env2 `div` 1000000000)%N).
Proof.
  split.
  - intros env p Hs. unfold contributor, detect_role_name.
    destruct (role_name p) as [r|]; [|done]. simpl in Hs. by rewrite Hs.
  - intros env1 env2. unfold detect_role_name. split.
    + intros H. apply (inj (String.app "role_")) in H. by apply (inj pretty) in H.
    + by intros ->.
Qed.

(** ** Cleaning up after the last fragment *)

Lemma ensure_staging_directory_there (env : environment) n b w :
  is_Some (stat (fs w) (place env (Path.join b n))) →
  ensure_staging_directory env n b w = (Ok (Path.join b n), w).
Proof.
  intros H. unfold ensure_staging_directory, bind, exists_, ret.
  by rewrite (bool_decide_eq_true_2 _ H).
Qed.

Lemma has_entries_true_inv m k :
  has_entries m k = true → ∃ k', is_Some (m !! k') ∧ k' ≠ [] ∧ parent k' = k.
Proof.
  unfold has_entries. rewrite bool_decide_eq_true, map_Exists_lookup.
  intros (k' & n & Hn & ? & ?). exists k'. eauto.
Qed.

(** C8, as stated, fails: the staging directory can stay after its last
    fragment is removed.  On a host that refuses the [rmdir], the only
    fragment of the nginx target is removed, the run reports
    [changed=true], and the directory is still there, empty.  The same
    happens, on a host that refuses nothing, when the directory also
    holds a temporary file that an earlier failed write left behind:
    no fragment remains, and the directory stays. *)
Lemma last_fragment_removed_directory_stays :
  let w := Scenario.staged Scenario.nginx_stored in
  let out := run_module (Scenario.refusing Shape.no_rmdir) Scenario.nginx_absent false w in
  let w2 := Shape.staged_with_leftover Scenario.nginx_stored in
  let out2 := run_module Scenario.quiet Scenario.nginx_absent false w2 in
  has_entries (delete Scenario.nginx_fragment (fs w)) Scenario.nginx_dir = false
  ∧ reported out.1 = Some true
  ∧ fs out.2 !! Scenario.nginx_fragment = None
  ∧ has_entries (fs out.2) Scenario.nginx_dir = false
  ∧ stat (fs out.2) Scenario.nginx_dir = Some (Dir o755)
  ∧ reported out2.1 = Some true
  ∧ fs out2.2 !! Scenario.nginx_fragment = None
  ∧ fs out2.2 = <[Scenario.nginx_dir ++ [".nginx_role_abcd1234.tmp"] := File "# M" o600]>
                  (<[Scenario.nginx_dir := Dir o755]> (fs Scenario.base_only))
  ∧ stat (fs out2.2) Scenario.nginx_dir = Some (Dir o755).
Proof. repeat split; vm_compute; reflexivity. Qed.

(** C8, amended.  An [absent] (not a dry run) for a fragment that is
    there, in a staging directory that is there, on a host that lets the
    file be removed, succeeds with [changed=true] and the fragment is
    gone, whether or not the directory can be removed afterwards.  If
    the removal leaves the staging directory without any entry and the
    host lets it be removed, the directory no longer exists afterwards;
    if another entry of the directory remains, the directory still
    exists and that entry is untouched.  The paths of the directory and
    of the fragment are not empty and have no ["."] or [".."] segment. *)
Theorem absent_cleans_directory (env : environment) (p : params) (w : world) :
  let d := Path.join (staging_base_dir p) (name p) in
  let fp := fragment_file d (contributor env p) in
  state p = "absent" →
  Shape.literal d = true →
  Shape.literal fp = true →
  (∃ perm, stat (fs w) (place env d) = Some (Dir perm)) →
  (∃ dt perm, fs w !! place env fp = Some (File dt perm)) →
  refuses env (SysUnlink fp) = false →
  ∃ r w',
    run_params env p false w = (ExitJson r, w')
    ∧ changed r = true
    ∧ fs w' !! place env fp = None
    ∧ (has_entries (delete (place env fp) (fs w)) (place env d) = false →
       refuses env (SysRmdir d) = false → place env d ≠ [] →
       stat (fs w') (place env d) = None)
    ∧ (∀ k n, k ≠ place env fp → k ≠ [] → parent k = place env d →
              fs w !! k = Some n →
              is_Some (stat (fs w') (place env d)) ∧ fs w' !! k = Some n).
Proof.
  intros d fp Hst _ _ [dperm Hdir] (dt & fperm & Hfile) Hunlink.
  set (dk := place env d) in *. set (fk := place env fp) in *.
  assert (dk ≠ fk) as Hne.
  { intros E. rewrite E in Hdir. rewrite stat_lookup in Hdir by apply fragment_nonroot.
    congruence. }
  unfold run_params.
  destruct (manage env p false _ w) as [res w'] eqn:Hm.
  apply manage_absent_inv in Hm as (r1 & w1 & He & Hm); [|done].
  rewrite ensure_staging_directory_there in He by (fold d dk; rewrite Hdir; eauto).
  simplify_eq. destruct Hm as (r2 & Hrm & Hm).
  apply remove_fragment_inv in Hrm. fold d fp fk dk in Hrm.
  destruct r2 as [[|]|x].
  - destruct Hm as (r & -> & Hc). exists r, w'. split; [done|]. split; [done|].
    destruct Hrm as (_ & _ & [(_ & Hempty & Hfs)|(_ & Hfs & Hwhy)]).
    + (* the directory was removed *)
      split; [by rewrite Hfs, lookup_delete_ne, lookup_delete_eq|].
      split.
      * intros _ _ Hroot. rewrite stat_lookup by done. by rewrite Hfs, lookup_delete_eq.
      * intros k n Hk Hk0 Hp Hn. exfalso.
        apply (proj1 (has_entries_false _ _) Hempty k); [|done..].
        rewrite lookup_delete_ne by done. eauto.
    + (* the directory stayed *)
      split; [by rewrite Hfs, lookup_delete_eq|].
      split.
      * intros Hempty Hrmdir Hroot. exfalso.
        destruct Hwhy as [?|[?|[Hnodir|?]]]; [congruence..| |congruence].
        apply (Hnodir dperm). rewrite stat_lookup by done.
        rewrite lookup_delete_ne by done. by rewrite <- stat_lookup.
      * intros k n Hk Hk0 Hp Hn. rewrite Hfs. split.
        -- destruct dk as [|a dk'] eqn:Edk; [by eexists|]. simpl.
           rewrite lookup_delete_ne by done. simpl in Hdir. rewrite Hdir. eauto.
        -- by rewrite lookup_delete_ne.
  - exfalso. destruct Hrm as [_ Hnone]. apply stat_none in Hnone as [? _]. congruence.
  - exfalso. destruct Hrm as (e & _ & _ & _ & _ & Hnot).
    apply (Hnot Hunlink dt fperm). rewrite stat_lookup by apply fragment_nonroot. done.
Qed.

(** The last fragment of the nginx target is removed, and the target's
    directory with it. *)
Lemma absent_cleans_directory_witness :
  let env := Scenario.quiet in
  let p := Scenario.nginx_params "absent" in
  let w := Scenario.staged Scenario.nginx_stored in
  let d := Path.join (staging_base_dir p) (name p) in
  let fp := fragment_file d (contributor env p) in
  let out := run_params env p false w in
  Shape.literal d = true
  ∧ Shape.literal fp = true
  ∧ stat (fs w) (place env d) = Some (Dir o755)
  ∧ fs w !! place env fp = Some (File Scenario.nginx_stored o644)
  ∧ reported out.1 = Some true
  ∧ fs out.2 !! place env fp = None
  ∧ stat (fs out.2) (place env d) = None.
Proof.
  intros env p w d fp out.
  assert (Shape.literal d = true) as Hd by (vm_compute; reflexivity).
  assert (Shape.literal fp = true) as Hfp by (vm_compute; reflexivity).
  assert (stat (fs w) (place env d) = Some (Dir o755)) as Hdir
    by (vm_compute; reflexivity).
  assert (fs w !! place env fp = Some (File Scenario.nginx_stored o644)) as Hfile
    by (vm_compute; reflexivity).
  assert (has_entries (delete (place env fp) (fs w)) (place env d) = false) as Hlast
    by (vm_compute; reflexivity).
  assert (place env d ≠ []) as Hroot by (vm_compute; discriminate).
  split; [exact Hd|]. split; [exact Hfp|]. split; [exact Hdir|]. split; [exact Hfile|].
  destruct (absent_cleans_directory env p w
              eq_refl Hd Hfp (ex_intro _ _ Hdir) (ex_intro _ _ (ex_intro _ _ Hfile)) eq_refl)
    as (r & w' & Hrun & Hc & Hgone & Hempty & _).
  change (run_params env p false w) with out in Hrun.
  rewrite Hrun. simpl. rewrite Hc. split; [reflexivity|]. split; [exact Hgone|].
  exact (Hempty Hlast eq_refl Hroot).
Defined.

(** With a second fragment in the target, removing the first leaves the
    directory and the second as they were. *)
Example absent_keeps_other_fragment :
  let w := Scenario.staged_two Scenario.nginx_stored Scenario.nginx_older in
  let out := run_params Scenario.quiet (Scenario.nginx_params "absent") false w in
  reported out.1 = Some true
  ∧ raised out.2 = [SysRmdir "/etc/apparmor.d/roles/usr.sbin.nginx"]
  ∧ fs out.2 !! Scenario.nginx_fragment = None
  ∧ stat (fs out.2) Scenario.nginx_dir = Some (Dir o755)
  ∧ fs out.2 !! Scenario.php_fragment = Some (File Scenario.nginx_older o644).
Proof. repeat split; vm_compute; reflexivity. Qed.


(** ** Validation at the boundary *)

(** C9, as stated, fails for the target name: [required=True] asks for
    the key, not for a non-empty value, and nothing else looks at it.
    With the empty string as target the call is accepted and stages the
    fragment directly under the base directory. *)
Lemma empty_target_is_accepted :
  let w := Scenario.base_only in
  let out := run_module Scenario.quiet Scenario.empty_target false w in
  arg_name Scenario.empty_target = Some ""
  ∧ reported out.1 = Some true
  ∧ fs w !! (Scenario.roles_dir ++ ["nginx_role.fragment"]) = None
  ∧ fs out.2 !! (Scenario.roles_dir ++ ["nginx_role.fragment"])
    = Some (File Scenario.nginx_stored o644).
Proof. repeat split; vm_compute; reflexivity. Qed.

(** C9, amended.  Before any function of the engine runs, the module
    checks that a target name is supplied (it may be empty), that exactly
    one of [fragment_src] and [fragment] is supplied, and that mode and
    state (or their defaults) are among the choices.  A call that fails
    a check ends as an argument error and the world is as it was; a call
    that passes runs the engine on exactly these parameters.  The plugin
    turns down a task with both a non-empty [fragment_src] and a
    non-empty [fragment] before it looks anything up. *)
Theorem arguments_validated (env : environment) (a : task_args) (check_mode : bool)
    (w : world) :
  (Outcome.rejected a → ∃ msg, run_module env a check_mode w = (ArgumentError msg, w))
  ∧ (¬ Outcome.rejected a →
     ∃ p, Ansible.AnsibleModule a = inr p
          ∧ run_module env a check_mode w = run_params env p check_mode w
          ∧ arg_name a = Some (name p)
          ∧ mode p ∈ Ansible.mode_choices
          ∧ state p ∈ Ansible.state_choices
          ∧ (is_Some (fragment_src p) ↔ fragment p = None))
  ∧ (∀ ctl, Action.supplied (arg_fragment_src a) = true →
            Action.supplied (arg_fragment a) = true →
            Action.run ctl env a check_mode w
            = (Action.Failed "fragment_src and fragment are mutually exclusive", [], w)).
Proof.
  split; [|split].
  - unfold Outcome.rejected, run_module, Ansible.AnsibleModule, Ansible.count_terms.
    intros H.
    destruct (arg_fragment_src a) as [src|], (arg_fragment a) as [frag|]; simpl;
      [eauto| | |].
    + destruct (arg_name a); [|eauto].
      destruct H as [?|[[_ [? ?]]|[[? _]|[Hm|Hs]]]]; try done.
      * rewrite (bool_decide_eq_false_2 _ Hm). simpl. eauto.
      * case_bool_decide; simpl; [|eauto].
        rewrite (bool_decide_eq_false_2 _ Hs). simpl. eauto.
    + destruct (arg_name a); [|eauto].
      destruct H as [?|[[[? ?] _]|[[_ ?]|[Hm|Hs]]]]; try done.
      * rewrite (bool_decide_eq_false_2 _ Hm). simpl. eauto.
      * case_bool_decide; simpl; [|eauto].
        rewrite (bool_decide_eq_false_2 _ Hs). simpl. eauto.
    + destruct (arg_name a); [|eauto].
      repeat (case_bool_decide; simpl; eauto).
  - unfold Outcome.rejected, run_module, Ansible.AnsibleModule, Ansible.count_terms.
    intros H.
    destruct (arg_name a) as [n|]; [|destruct H; by left].
    destruct (decide (default "enforce" (arg_mode a) ∈ Ansible.mode_choices)) as [Hm|Hm];
      [|destruct H; auto].
    destruct (decide (default "present" (arg_state a) ∈ Ansible.state_choices)) as [Hs|Hs];
      [|destruct H; auto 6].
    rewrite (bool_decide_eq_true_2 _ Hm), (bool_decide_eq_true_2 _ Hs).
    destruct (arg_fragment_src a) as [src|], (arg_fragment a) as [frag|]; simpl.
    + destruct H. right; left. eauto.
    + eexists. repeat split; eauto.
    + eexists. repeat split; try done. by intros [? ?].
    + destruct H. auto.
  - intros ctl Hs Hf. unfold Action.run. by rewrite Hs, Hf.
Qed.

(** ** Content by reference *)

(** C10, as stated, fails: a [fragment_src] that is supplied, but empty,
    is not looked up anywhere; and neither is one that comes together
    with a [fragment]. *)
Lemma supplied_reference_is_not_looked_up :
  let quiet_run := Action.run Shape.in_files_dir Scenario.quiet in
  arg_fragment_src Shape.empty_reference = Some ""
  ∧ (quiet_run Shape.empty_reference false Scenario.bare).1.2
    = [Action.ExecuteModule Shape.empty_reference]
  ∧ arg_fragment_src Shape.reference_and_fragment = Some "apparmor/usr.sbin.nginx.rules"
  ∧ Action.find_needle Shape.in_files_dir "files" "apparmor/usr.sbin.nginx.rules"
    = Some "/srv/roles/web/files/apparmor/usr.sbin.nginx.rules"
  ∧ (quiet_run Shape.reference_and_fragment false Scenario.bare).1
    = (Action.Failed "fragment_src and fragment are mutually exclusive", []).
Proof. repeat split; vm_compute; reflexivity. Qed.

Ltac in_log :=
  unfold not; intros;
  repeat match goal with
         | H : _ ∧ _ |- _ => destruct H
         | H : _ ∨ _ |- _ => destruct H
         | H : _ ∈ _ :: _ |- _ => apply elem_of_cons in H as [H|H]
         | H : _ ∈ [] |- _ => by apply elem_of_nil in H
         end;
  simplify_eq;
  repeat match goal with
         | H1 : ?t = _, H2 : ?t = _ |- _ => rewrite H1 in H2; simplify_eq
         end;
  repeat match goal with
         | H : run_module _ _ _ _ = _ |- _ => rewrite H
         end;
  rewrite ?elem_of_cons; simpl; solve [eauto 10].

(** C10, amended.  For a task with a non-empty [fragment_src] and no
    non-empty [fragment], the plugin asks [files/] first and
    [templates/] only if that lookup fails; it fails with the lookup
    error exactly when both lookups fail, and then runs nothing; the
    file found is read, what is read goes through the templar whichever
    directory it was in, and the module is run with the templated text
    as its [fragment], the result of the plugin being that run. *)
Theorem fragment_src_resolution (ctl : Action.controller) (env : environment)
    (a : task_args) (check_mode : bool) (w : world) :
  Action.supplied (arg_fragment_src a) = true →
  Action.supplied (arg_fragment a) = false →
  Outcome.resolved_in_order ctl env a check_mode w (Action.run ctl env a check_mode w).
Proof.
  intros Hs Hf. unfold Outcome.resolved_in_order, Action.run. rewrite Hs, Hf.
  set (src := default "" (arg_fragment_src a)).
  destruct (Action.find_needle ctl "files" src) as [p1|] eqn:Hfiles;
    [|destruct (Action.find_needle ctl "templates" src) as [p2|] eqn:Htemplates].
  - (* found under files/ *)
    unfold Action.read_and_template.
    destruct (Action.read_source ctl p1) as [content|e] eqn:Hread;
      [destruct (Action.template ctl content) as [text|e] eqn:Htpl|].
    + unfold Action.execute_module. fold (Outcome.handed_over a text).
      destruct (run_module env (Outcome.handed_over a text) check_mode w)
        as [o w'] eqn:Hrun.
      simpl. repeat split; try in_log.
      intros a' Hin. exists p1, content, text. repeat split; in_log.
    + simpl. repeat split; try in_log.
    + simpl. repeat split; try in_log.
  - (* found under templates/ *)
    unfold Action.read_and_template.
    destruct (Action.read_source ctl p2) as [content|e] eqn:Hread;
      [destruct (Action.template ctl content) as [text|e] eqn:Htpl|].
    + unfold Action.execute_module. fold (Outcome.handed_over a text).
      destruct (run_module env (Outcome.handed_over a text) check_mode w)
        as [o w'] eqn:Hrun.
      simpl. repeat split; try in_log.
      intros a' Hin. exists p2, content, text. repeat split; in_log.
    + simpl. repeat split; try in_log.
    + simpl. repeat split; try in_log.
  - (* found nowhere *)
    simpl. repeat split; try in_log.
Qed.

(** A role that keeps the rules under [templates/] only. *)
Lemma fragment_src_resolution_witness :
  let ctl := Scenario.templates_only in
  let a := Scenario.by_reference in
  let w := Scenario.bare in
  Action.supplied (arg_fragment_src a) = true
  ∧ Action.supplied (arg_fragment a) = false
  ∧ Outcome.resolved_in_order ctl Scenario.quiet a false w
      (Action.run ctl Scenario.quiet a false w).
Proof.
  intros ctl a w. split; [reflexivity|]. split; [reflexivity|].
  exact (fragment_src_resolution ctl Scenario.quiet a false w eq_refl eq_refl).
Defined.

Example by_reference_scenario :
  let out := Action.run Scenario.templates_only Scenario.quiet Scenario.by_reference
               false Scenario.bare in
  out.1.2 = [Action.Lookup "files" "apparmor/usr.sbin.nginx.rules";
             Action.Lookup "templates" "apparmor/usr.sbin.nginx.rules";
             Action.ReadSource "/srv/roles/web/templates/apparmor/usr.sbin.nginx.rules";
             Action.Template ("{{ docroot }}/** r," +:+ Text.nl);
             Action.ExecuteModule Scenario.nginx_present]
  ∧ fs out.2 !! Scenario.nginx_fragment = Some (File Scenario.nginx_stored o644).
Proof. split; vm_compute; reflexivity. Qed.

(** * Further properties of the code *)

(** ** Where fragments are stored *)

(** X1.  The layout of the module's documentation,
    [staging_base_dir/<profile_name>/<role_name>.fragment].  For a
    target name that is one ordinary path segment and a role name
    without a slash, the fragment is the entry [<role_name>.fragment] of
    the directory [<profile_name>] of the base directory. *)
Theorem fragment_layout (env : environment) (base nm role : string) :
  Shape.plain nm →
  Shape.contains Text.slash role = false →
  place env (fragment_file (Path.join base nm) role)
  = place env base ++ [nm; role +:+ ".fragment"].
Proof.
  intros Hn Hr. unfold place, fragment_file.
  rewrite NameFacts.resolve_join_plain by by apply NameFacts.fragment_name_plain.
  rewrite NameFacts.resolve_join_plain by done. by rewrite <- app_assoc.
Qed.

Lemma fragment_layout_witness :
  Shape.plain "usr.sbin.nginx"
  ∧ Shape.contains Text.slash "nginx_role" = false
  ∧ place Scenario.quiet
      (fragment_file (Path.join "/etc/apparmor.d/roles" "usr.sbin.nginx") "nginx_role")
    = place Scenario.quiet "/etc/apparmor.d/roles"
      ++ ["usr.sbin.nginx"; "nginx_role" +:+ ".fragment"].
Proof.
  assert (Shape.plain "usr.sbin.nginx") as Hn by (repeat split; discriminate).
  split; [exact Hn|]. split; [reflexivity|].
  exact (fragment_layout Scenario.quiet "/etc/apparmor.d/roles" "usr.sbin.nginx"
           "nginx_role" Hn eq_refl).
Defined.

(** X2.  Two contributors of one target never share a fragment file, as
    long as their role names contain no slash. *)
Theorem contributors_have_own_files (env : environment) (d r1 r2 : string) :
  Shape.contains Text.slash r1 = false →
  Shape.contains Text.slash r2 = false →
  r1 ≠ r2 →
  place env (fragment_file d r1) ≠ place env (fragment_file d r2).
Proof.
  intros H1 H2 Hne. unfold place, fragment_file.
  rewrite !NameFacts.resolve_join_plain by by apply NameFacts.fragment_name_plain.
  intros E. apply app_inj_tail in E as [_ E]. by apply NameFacts.append_inj_l in E.
Qed.

Lemma contributors_have_own_files_witness :
  let d := "/etc/apparmor.d/roles/usr.sbin.nginx" in
  Shape.contains Text.slash "nginx_role" = false
  ∧ Shape.contains Text.slash "php_role" = false
  ∧ "nginx_role" ≠ "php_role"
  ∧ place Scenario.quiet (fragment_file d "nginx_role")
    ≠ place Scenario.quiet (fragment_file d "php_role").
Proof.
  intros d.
  assert ("nginx_role" ≠ "php_role") as Hne by discriminate.
  split; [reflexivity|]. split; [reflexivity|]. split; [exact Hne|].
  exact (contributors_have_own_files Scenario.quiet d "nginx_role" "php_role"
           eq_refl eq_refl Hne).
Defined.



Lemma pretty_N_go_no_slash (x : N) (s : string) :
  Shape.contains Text.slash s = false →
  Shape.contains Text.slash (pretty_N_go x s) = false.
Proof.
  revert s. induction (N.lt_wf_0 x) as [x _ IH]; intros s Hs.
  assert (x = 0 ∨ 0 < x)%N as [->|?] by lia.
  - by rewrite pretty_N_go_0.
  - rewrite pretty_N_go_step by done. apply IH.
    { by apply N.div_lt. }
    cbn [Shape.contains]. rewrite Hs, orb_false_r.
    apply bool_decide_eq_false. unfold pretty_N_char, Text.slash.
    by repeat case_match.
Qed.

(** X4.  The role name the module makes up when none is given is one
    ordinary path segment (["role_"] and decimal digits, no slash), so
    with an ordinary target name the fragment lies in the target's
    staging directory. *)
Theorem detected_role_name_is_a_segment (env : environment) :
  Shape.contains Text.slash (detect_role_name env) = false
  ∧ ∀ p, Action.supplied (role_name p) = false →
         Shape.plain (name p) →
         place env (fragment_file (Path.join (staging_base_dir p) (name p))
                                  (contributor env p))
         = place env (staging_base_dir p)
           ++ [name p; detect_role_name env +:+ ".fragment"].
Proof.
  assert (Shape.contains Text.slash (detect_role_name env) = false) as Hd.
  { unfold detect_role_name. rewrite NameFacts.contains_app.
    change (Shape.contains Text.slash "role_") with false. cbn [orb].
    unfold pretty, pretty_N. case_decide; [done|]. by apply pretty_N_go_no_slash. }
  split; [done|]. intros p Hs Hn.
  assert (contributor env p = detect_role_name env) as ->.
  { unfold contributor. destruct (role_name p) as [r|]; [|done].
    simpl in Hs. by rewrite Hs. }
  unfold place, fragment_file.
  rewrite NameFacts.resolve_join_plain by by apply NameFacts.fragment_name_plain.
  rewrite NameFacts.resolve_join_plain by done. by rewrite <- app_assoc.
Qed.

(** X5.  A target name that starts with a slash is not confined to the
    base directory: [os.path.join] drops the base, and the run is the
    same under any [staging_base_dir]. *)
Theorem absolute_target_ignores_base (env : environment) (p : params) (b : string)
    (check_mode : bool) (w : world) :
  Text.startswith Text.slash (name p) = true →
  run_params env (Shape.with_base b p) check_mode w = run_params env p check_mode w.
Proof.
  intros H.
  assert (∀ b0, Path.join b0 (name p) = name p) as Hj
    by (intros b0; unfold Path.join; by rewrite H).
  unfold run_params, manage, ensure_staging_directory, contributor. simpl.
  by rewrite !Hj.
Qed.

Lemma absolute_target_ignores_base_witness :
  let p := Shape.absolute_target in
  let out := run_params Scenario.quiet (Shape.with_base "/srv/staging" p) false
               Scenario.bare in
  Text.startswith Text.slash (name p) = true
  ∧ out = run_params Scenario.quiet p false Scenario.bare
  ∧ Shape.reported_path out.1 = Some "/tmp/usr.sbin.nginx/nginx_role.fragment".
Proof.
  intros p out. split; [reflexivity|].
  split; [exact (absolute_target_ignores_base Scenario.quiet p "/srv/staging"
                   false Scenario.bare eq_refl)|].
  vm_compute. reflexivity.
Defined.

(** ** The functions of the module, one at a time *)

(** X6.  [ensure_staging_directory] is idempotent.  Once it has succeeded,
    calling it again (at another time, on a host that may by then refuse
    [makedirs]) returns the same path and leaves the world as it is. *)
Theorem ensure_staging_directory_idempotent (env env' : environment)
    (profile_name base : string) (w : world) (d : string) (w1 : world) :
  cwd env' = cwd env →
  ensure_staging_directory env profile_name base w = (Ok d, w1) →
  ensure_staging_directory env' profile_name base w1 = (Ok d, w1).
Proof.
  intros Hcwd H. apply ensure_staging_directory_inv in H as [_ (-> & _ & Hthere & _)].
  apply ensure_staging_directory_there. unfold place in *. by rewrite Hcwd.
Qed.

Lemma ensure_staging_directory_idempotent_witness :
  let out := ensure_staging_directory Scenario.quiet "usr.sbin.nginx"
               "/etc/apparmor.d/roles" Scenario.bare in
  let d := "/etc/apparmor.d/roles/usr.sbin.nginx" in
  cwd (Scenario.refusing (λ _, true)) = cwd Scenario.quiet
  ∧ out = (Ok d, out.2)
  ∧ ensure_staging_directory (Scenario.refusing (λ _, true)) "usr.sbin.nginx"
      "/etc/apparmor.d/roles" out.2 = (Ok d, out.2).
Proof.
  intros out d.
  assert (out = (Ok d, out.2)) as Hrun by (vm_compute; reflexivity).
  split; [reflexivity|]. split; [exact Hrun|].
  exact (ensure_staging_directory_idempotent Scenario.quiet
           (Scenario.refusing (λ _, true)) "usr.sbin.nginx" "/etc/apparmor.d/roles"
           Scenario.bare d out.2 eq_refl Hrun).
Defined.

(** X7.  [fragment_exists_and_unchanged] is a query: it leaves the file
    system as it is.  It answers [True] only for a file that is there,
    that the host lets be read, and that reads back as the stored form.
    It answers [False], without any system call failing, when nothing
    is at the fragment's path; and a failure of the read (an [OSError])
    is answered with [False]. *)
Theorem fragment_exists_and_unchanged_is_query (env : environment) (d : string)
    (c : option string) (md r : string) (w : world) :
  let out := fragment_exists_and_unchanged env d c md r w in
  let fp := fragment_file d r in
  fs out.2 = fs w
  ∧ (out.1 = Ok true →
     out.2 = w ∧ refuses env (SysOpen fp) = false
     ∧ ∃ dt perm, fs w !! place env fp = Some (File dt perm)
                  ∧ Text.universal_newlines dt = stored_form md c)
  ∧ (stat (fs w) (place env fp) = None → out = (Ok false, w))
  ∧ (raised out.2 ≠ raised w →
     out.1 = Ok false ∧ raised out.2 = raised w ++ [SysOpen fp]).
Proof.
  intros out fp. subst out.
  destruct (fragment_exists_and_unchanged env d c md r w) as [res w'] eqn:H.
  pose proof H as Hread.
  apply fragment_exists_and_unchanged_inv in H as (Hfs & b & -> & H). fold fp in H.
  simpl. split; [done|]. destruct b.
  - apply fragment_exists_and_unchanged_true in Hread.
    destruct H as (-> & H). split; [done|]. split; [|done].
    intros Hn. destruct H as (dt & perm & Hf & _).
    apply stat_none in Hn as [Hn _]. congruence.
  - split; [done|]. split.
    + intros Hn. destruct H as [[-> _]|[[n Hthere] _]]; [done|congruence].
    + intros Hr. destruct H as [[-> _]|[_ ?]]; done.
Qed.

(** X8.  A successful [write_fragment] changes exactly one entry of the
    file system.  The fragment holds the stored form with mode 0644,
    whatever the umask and whatever was there before; every other entry
    is as it was, so no temporary file is left; and no call raised. *)
Theorem write_fragment_success (env : environment) (d : string) (c : option string)
    (md r : string) (w : world) (path : string) (w' : world) :
  write_fragment env d c md r w = (Ok path, w') →
  path = fragment_file d r
  ∧ fs w' = <[place env (fragment_file d r) := File (stored_form md c) o644]> (fs w)
  ∧ raised w' = raised w.
Proof.
  intros H. apply write_fragment_inv in H as (-> & Hr & Hfs). done.
Qed.

Lemma write_fragment_success_witness :
  let d := "/etc/apparmor.d/roles/usr.sbin.nginx" in
  let w := Scenario.staged Scenario.nginx_older in
  let out := write_fragment Scenario.quiet d (Some Scenario.nginx_rules)
               "enforce" "nginx_role" w in
  out = (Ok (fragment_file d "nginx_role"), out.2)
  ∧ fs out.2
    = <[place Scenario.quiet (fragment_file d "nginx_role")
        := File (stored_form "enforce" (Some Scenario.nginx_rules)) o644]> (fs w).
Proof.
  intros d w out.
  assert (out = (Ok (fragment_file d "nginx_role"), out.2)) as Hrun
    by (vm_compute; reflexivity).
  split; [exact Hrun|].
  exact (proj1 (proj2 (write_fragment_success Scenario.quiet d (Some Scenario.nginx_rules)
                         "enforce" "nginx_role" w _ out.2 Hrun))).
Defined.

(** ** What a run leaves alone *)

Lemma run_params_world (env : environment) (p : params) (check_mode : bool) (w : world) :
  (run_params env p check_mode w).2 = (manage env p check_mode (contributor env p) w).2.
Proof. unfold run_params. by destruct (manage _ _ _ _ _) as [[?|?] ?]. Qed.

(** X10.  Whatever its state, mode and outcome, a run touches no existing
    entry other than its own fragment file and its own staging
    directory: every other file and directory that was there is there
    afterwards, unchanged. *)
Theorem run_keeps_other_entries (env : environment) (p : params) (check_mode : bool)
    (w : world) (k : list string) (n : node) :
  let d := Path.join (staging_base_dir p) (name p) in
  fs w !! k = Some n →
  k ≠ place env (fragment_file d (contributor env p)) →
  k ≠ place env d →
  fs (run_params env p check_mode w).2 !! k = Some n.
Proof.
  intros d Hk Hfk Hdk. rewrite run_params_world.
  set (role := contributor env p) in *.
  destruct check_mode.
  { by destruct (manage_check_mode env p role w) as (r & -> & _). }
  destruct (manage env p false role w) as [res w'] eqn:Hm. simpl.
  assert (∀ r1 w1, ensure_staging_directory env (name p) (staging_base_dir p) w = (r1, w1) →
                   fs w1 !! k = Some n) as Hens.
  { intros r1 w1 He. apply ensure_staging_directory_inv in He as [G _].
    destruct (G k) as [->|(? & _)]; [done|congruence]. }
  destruct (decide (state p = "present")) as [Hp|Hp];
    [|destruct (decide (state p = "absent")) as [Ha|Ha]].
  - apply manage_present_inv in Hm as (r1 & w1 & He & Hm); [|done].
    pose proof (Hens _ _ He) as Hk1.
    apply ensure_staging_directory_inv in He as [_ He].
    destruct r1 as [d'|x]; [|by destruct Hm as [_ ->]].
    destruct He as (-> & _). fold d in Hm. destruct Hm as (r2 & w2 & Hf & Hm).
    apply fragment_exists_and_unchanged_inv in Hf as (Hfs2 & b & -> & _).
    rewrite <- Hfs2 in Hk1.
    destruct b; [by destruct Hm as [-> _]|].
    destruct Hm as (r3 & Hw & _). apply write_fragment_inv in Hw.
    destruct r3 as [path|x]; simpl in Hw.
    + destruct Hw as (_ & _ & ->). by rewrite lookup_insert_ne.
    + destruct Hw as [(e & _ & _ & ->)|(t & e & call & cleanup & _ & Hfree & _ & _ & Hw)];
        [done|].
      destruct Hw as [(_ & Hsame & _)|(_ & _ & perm & ->)].
      * rewrite Hsame; [done|]. intros ->. congruence.
      * by rewrite lookup_insert_ne.
  - apply manage_absent_inv in Hm as (r1 & w1 & He & Hm); [|done].
    pose proof (Hens _ _ He) as Hk1.
    apply ensure_staging_directory_inv in He as [_ He].
    destruct r1 as [d'|x]; [|by destruct Hm as [_ ->]].
    destruct He as (-> & _). fold d in Hm. destruct Hm as (r2 & Hrm & _).
    apply remove_fragment_inv in Hrm. fold role in Hrm.
    destruct r2 as [[|]|x]; simpl in Hrm.
    + destruct Hrm as (_ & _ & [(_ & _ & ->)|(_ & -> & _)]);
        by rewrite ?lookup_delete_ne.
    + by destruct Hrm as [-> _].
    + destruct Hrm as (e & _ & _ & -> & _). done.
  - unfold manage in Hm.
    rewrite (bool_decide_eq_false_2 _ Hp), (bool_decide_eq_false_2 _ Ha) in Hm.
    apply bind_inv in Hm as [(d' & w1 & He & Hm)|(x & He & _)]; [|by eapply Hens].
    unfold ret in Hm. simplify_eq. by eapply Hens.
Qed.

(** The php role's fragment, while the nginx role's is removed. *)
Lemma run_keeps_other_entries_witness :
  let env := Scenario.quiet in
  let p := Scenario.nginx_params "absent" in
  let w := Scenario.staged_two Scenario.nginx_stored Scenario.nginx_older in
  let d := Path.join (staging_base_dir p) (name p) in
  let n := File Scenario.nginx_older o644 in
  fs w !! Scenario.php_fragment = Some n
  ∧ Scenario.php_fragment ≠ place env (fragment_file d (contributor env p))
  ∧ Scenario.php_fragment ≠ place env d
  ∧ fs (run_params env p false w).2 !! Scenario.php_fragment = Some n.
Proof.
  intros env p w d n.
  assert (fs w !! Scenario.php_fragment = Some n) as H1 by (vm_compute; reflexivity).
  assert (Scenario.php_fragment ≠ place env (fragment_file d (contributor env p))) as H2
    by (vm_compute; discriminate).
  assert (Scenario.php_fragment ≠ place env d) as H3 by (vm_compute; discriminate).
  split; [exact H1|]. split; [exact H2|]. split; [exact H3|].
  exact (run_keeps_other_entries env p false w Scenario.php_fragment n H1 H2 H3).
Defined.



(** ** The stored form *)

Lemma mode_line_inj (m1 m2 c1 c2 : string) :
  m1 ∈ Ansible.mode_choices → m2 ∈ Ansible.mode_choices →
  "# Mode: " +:+ m1 +:+ Text.nl +:+ c1 = "# Mode: " +:+ m2 +:+ Text.nl +:+ c2 →
  m1 = m2 ∧ c1 = c2.
Proof.
  unfold Ansible.mode_choices. rewrite !elem_of_cons, !elem_of_nil.
  intros [->|[->|[->|[]]]] [->|[->|[->|[]]]] H; compute in H; by simplify_eq.
Qed.

Lemma stored_form_plain (m c : string) :
  m ∈ Ansible.mode_choices → Shape.contains Text.CR c = false →
  Text.universal_newlines (stored_form m (Some c)) = stored_form m (Some c).
Proof.
  intros Hm Hc. apply NameFacts.universal_newlines_plain.
  unfold stored_form, fmt. simpl default. rewrite !NameFacts.contains_app, Hc.
  unfold Ansible.mode_choices in Hm. rewrite !elem_of_cons, elem_of_nil in Hm.
  by destruct Hm as [->|[->|[->|[]]]].
Qed.

(** X9.  The stored form determines the fragment.  For the three modes
    the module accepts, two stored forms are equal only if mode and
    content both are, so mode and content can be read back from the
    file. *)
Theorem stored_form_determines_fragment (m1 m2 c1 c2 : string) :
  m1 ∈ Ansible.mode_choices → m2 ∈ Ansible.mode_choices →
  stored_form m1 (Some c1) = stored_form m2 (Some c2) →
  m1 = m2 ∧ c1 = c2.
Proof. intros H1 H2 H. by apply mode_line_inj. Qed.

Lemma stored_form_determines_fragment_witness :
  "enforce" ∈ Ansible.mode_choices
  ∧ stored_form "enforce" (Some Scenario.nginx_rules)
    = stored_form "enforce" (Some ("/var/www/html/** r," +:+ Text.nl))
  ∧ Scenario.nginx_rules = "/var/www/html/** r," +:+ Text.nl.
Proof.
  assert ("enforce" ∈ Ansible.mode_choices) as Hm by (apply elem_of_cons; by left).
  split; [exact Hm|]. split; [reflexivity|].
  exact (proj2 (stored_form_determines_fragment "enforce" "enforce" _ _ Hm Hm eq_refl)).
Defined.

(** ** Present, again *)

(** What a [present] does when the fragment is there and reads back as
    the stored form: nothing. *)
Lemma present_finds_unchanged (env : environment) (p : params) (w : world) dt perm :
  let d := Path.join (staging_base_dir p) (name p) in
  let fp := fragment_file d (contributor env p) in
  state p = "present" →
  is_Some (stat (fs w) (place env d)) →
  fs w !! place env fp = Some (File dt perm) →
  Text.universal_newlines dt = stored_form (mode p) (fragment p) →
  refuses env (SysOpen fp) = false →
  ∃ r, run_params env p false w = (ExitJson r, w) ∧ changed r = false.
Proof.
  intros d fp Hst Hdir Hfile Hsame Hread.
  unfold run_params, manage. rewrite Hst. simpl.
  unfold bind at 1. unfold ensure_staging_directory, bind at 1, exists_ at 1.
  fold d. rewrite (bool_decide_eq_true_2 _ Hdir). simpl.
  unfold bind at 1, ret at 1. unfold bind at 1.
  unfold fragment_exists_and_unchanged, bind at 1, exists_ at 1. fold fp.
  rewrite bool_decide_eq_true_2
    by (rewrite stat_lookup by apply fragment_nonroot; rewrite Hfile; eauto).
  simpl. unfold try_except, bind at 1, read_text. rewrite Hread.
  rewrite stat_lookup by apply fragment_nonroot. rewrite Hfile.
  unfold ret at 1. rewrite Hsame. rewrite bool_decide_eq_true_2 by done.
  unfold ret. eexists. split; [done|]. done.
Qed.

(** What holds after any [present] that exits normally. *)
Lemma present_establishes (env : environment) (p : params) (w : world) r w' :
  let d := Path.join (staging_base_dir p) (name p) in
  let fk := place env (fragment_file d (contributor env p)) in
  state p = "present" →
  run_params env p false w = (ExitJson r, w') →
  is_Some (stat (fs w') (place env d))
  ∧ if changed r
    then fs w' !! fk = Some (File (stored_form (mode p) (fragment p)) o644)
         ∧ ∀ dt perm, fs w !! fk = Some (File dt perm) →
                      refuses env (SysOpen (fragment_file d (contributor env p))) = false →
                      Text.universal_newlines dt ≠ stored_form (mode p) (fragment p)
    else ∃ dt perm, fs w !! fk = Some (File dt perm)
                    ∧ fs w' !! fk = Some (File dt perm)
                    ∧ Text.universal_newlines dt = stored_form (mode p) (fragment p).
Proof.
  intros d fk Hst Hrun. unfold run_params in Hrun.
  destruct (manage env p false _ w) as [[r0|x] w0] eqn:Hm; [|done]. simplify_eq.
  apply manage_present_inv in Hm as (r1 & w1 & He & Hm); [|done].
  apply ensure_staging_directory_inv in He as [G He].
  destruct r1 as [d'|x]; [|by destruct Hm].
  destruct He as (-> & _ & Hdir & _). fold d in Hdir, Hm.
  destruct Hm as (r2 & w2 & Hf & Hm). pose proof Hf as Hf0.
  apply fragment_exists_and_unchanged_inv in Hf as (Hfs2 & b & -> & Hf).
  fold fk in Hf. destruct b.
  - destruct Hm as (-> & r3 & ? & Hc & _). simplify_eq. rewrite Hc.
    destruct Hf as (-> & dt & perm & Hfile & Hsame). split; [done|].
    exists dt, perm. split; [|done].
    destruct (G fk) as [<-|(_ & (perm' & Hd) & _)]; [done|congruence].
  - destruct Hm as (r3 & Hw & Hm). apply write_fragment_inv in Hw.
    destruct r3 as [path|x]; [|done]. destruct Hw as (-> & _ & Hfs').
    destruct Hm as (r4 & ? & Hc & _). simplify_eq. rewrite Hc. fold fk in Hfs'.
    split; [|split].
    + destruct (place env d) as [|a k] eqn:Hk; [by eexists|]. simpl in *.
      rewrite Hfs'. destruct (decide (fk = a :: k)) as [->|Hne].
      * rewrite lookup_insert_eq. eauto.
      * rewrite lookup_insert_ne by done. by rewrite Hfs2.
    + rewrite Hfs'. apply lookup_insert_eq.
    + intros dt perm Hfile Hread.
      assert (fs w1 !! fk = Some (File dt perm)) as Hfile1.
      { destruct (G fk) as [->|(? & _)]; [done|congruence]. }
      rewrite (fragment_exists_and_unchanged_reads env d _ _ _ w1 dt perm) in Hf0
        by done.
      injection Hf0 as Hb _. by apply bool_decide_eq_false in Hb.
Qed.

(** X13.  On text without carriage returns [present] is idempotent.  After
    any [present] that exits normally, the same call again (at another
    time, with other temporary names, on a host that lets the fragment
    be read) reports [changed=false] and leaves the world exactly as it
    is. *)
Theorem present_is_idempotent_on_plain_text (env env' : environment) (p : params)
    (w : world) (c : string) :
  let out1 := run_params env p false w in
  let out2 := run_params env' p false out1.2 in
  let d := Path.join (staging_base_dir p) (name p) in
  state p = "present" →
  fragment p = Some c →
  mode p ∈ Ansible.mode_choices →
  Shape.contains Text.CR c = false →
  cwd env' = cwd env →
  contributor env' p = contributor env p →
  refuses env' (SysOpen (fragment_file d (contributor env p))) = false →
  is_Some (reported out1.1) →
  reported out2.1 = Some false ∧ out2.2 = out1.2.
Proof.
  intros out1 out2 d Hst Hc Hm Hcr Hcwd Hrole Hread Hok. subst out2 out1.
  destruct (run_params env p false w) as [o w'] eqn:Hrun. simpl in *.
  destruct o as [r| |]; try by destruct Hok.
  apply present_establishes in Hrun as [Hdir Hrun]; [|done]. fold d in Hdir, Hrun.
  assert (∀ q, place env' q = place env q) as Hplace
    by (intros q; unfold place; by rewrite Hcwd).
  assert (∃ dt perm,
    fs w' !! place env (fragment_file d (contributor env p)) = Some (File dt perm)
    ∧ Text.universal_newlines dt = stored_form (mode p) (fragment p))
    as (dt & perm & Hfile & Hsame).
  { destruct (changed r).
    - destruct Hrun as [Hfile _]. eexists _, _. split; [done|].
      rewrite Hc. by apply stored_form_plain.
    - destruct Hrun as (dt & perm & _ & ? & ?). eauto. }
  destruct (present_finds_unchanged env' p w' dt perm) as (r' & -> & Hch); try done.
  - by rewrite Hplace.
  - by rewrite Hrole, Hplace.
  - by rewrite Hrole.
  - simpl. by rewrite Hch.
Qed.

Lemma present_is_idempotent_on_plain_text_witness :
  let env := Scenario.quiet in
  let env' := Scenario.later in
  let p := Scenario.nginx_params "present" in
  let out1 := run_params env p false Scenario.bare in
  let out2 := run_params env' p false out1.2 in
  is_Some (reported out1.1)
  ∧ reported out2.1 = Some false ∧ out2.2 = out1.2.
Proof.
  intros env env' p out1 out2.
  assert (is_Some (reported out1.1)) as Hok by (exists true; vm_compute; reflexivity).
  assert (mode p ∈ Ansible.mode_choices) as Hm by (apply elem_of_cons; by left).
  split; [exact Hok|].
  exact (present_is_idempotent_on_plain_text env env' p Scenario.bare
           Scenario.nginx_rules eq_refl eq_refl Hm eq_refl eq_refl eq_refl eq_refl Hok).
Defined.

(** X14.  A change of mode or of content forces a rewrite.  Over a
    fragment staged earlier for mode [m1] and content [c1] (without
    carriage returns), a [present] with another mode or other content
    that exits normally reports [changed=true], and the file then holds
    the new stored form. *)
Theorem changed_fragment_is_rewritten (env : environment) (p : params) (w : world)
    (m1 c1 c2 : string) (perm : N) :
  let out := run_params env p false w in
  let fk := place env (fragment_file (Path.join (staging_base_dir p) (name p))
                                     (contributor env p)) in
  state p = "present" →
  fragment p = Some c2 →
  m1 ∈ Ansible.mode_choices →
  mode p ∈ Ansible.mode_choices →
  Shape.contains Text.CR c1 = false →
  fs w !! fk = Some (File (stored_form m1 (Some c1)) perm) →
  m1 ≠ mode p ∨ c1 ≠ c2 →
  is_Some (reported out.1) →
  reported out.1 = Some true
  ∧ fs out.2 !! fk = Some (File (stored_form (mode p) (Some c2)) o644).
Proof.
  intros out fk Hst Hc Hm1 Hm Hcr Hfile Hdiff Hok. subst out.
  destruct (run_params env p false w) as [o w'] eqn:Hrun. simpl in *.
  destruct o as [r| |]; try by destruct Hok.
  apply present_establishes in Hrun as [_ Hrun]; [|done]. fold fk in Hrun.
  simpl. destruct (changed r).
  - destruct Hrun as [Hnew _]. by rewrite <- Hc.
  - exfalso. destruct Hrun as (dt & perm' & Hold & _ & Hsame).
    rewrite Hfile in Hold. injection Hold as <- _.
    rewrite stored_form_plain, Hc in Hsame by done.
    apply mode_line_inj in Hsame as [? ?]; [|done..]. by destruct Hdiff.
Qed.

Lemma changed_fragment_is_rewritten_witness :
  let env := Scenario.quiet in
  let p := Scenario.nginx_params "present" in
  let w := Scenario.staged Scenario.nginx_older in
  let out := run_params env p false w in
  let fk := place env (fragment_file (Path.join (staging_base_dir p) (name p))
                                     (contributor env p)) in
  fs w !! fk = Some (File (stored_form "complain" (Some Scenario.nginx_rules)) o644)
  ∧ is_Some (reported out.1)
  ∧ reported out.1 = Some true
  ∧ fs out.2 !! fk = Some (File (stored_form (mode p) (Some Scenario.nginx_rules)) o644).
Proof.
  intros env p w out fk.
  assert (fs w !! fk = Some (File (stored_form "complain" (Some Scenario.nginx_rules)) o644))
    as Hfile by (vm_compute; reflexivity).
  assert (is_Some (reported out.1)) as Hok by (exists true; vm_compute; reflexivity).
  assert ("complain" ∈ Ansible.mode_choices) as Hm1
    by (apply elem_of_cons; right; apply elem_of_cons; by left).
  assert (mode p ∈ Ansible.mode_choices) as Hm by (apply elem_of_cons; by left).
  assert ("complain" ≠ mode p ∨ Scenario.nginx_rules ≠ Scenario.nginx_rules) as Hdiff
    by (left; discriminate).
  split; [exact Hfile|]. split; [exact Hok|].
  exact (changed_fragment_is_rewritten env p w "complain" Scenario.nginx_rules
           Scenario.nginx_rules o644 eq_refl eq_refl Hm1 Hm eq_refl Hfile Hdiff Hok).
Defined.

(** X15.  What a dry run of [present] announces as the fragment's path is
    the path a real run that exits normally reports. *)
Theorem dry_run_previews_path (env : environment) (p : params) (w : world) :
  let dry := run_params env p true w in
  let real := run_params env p false w in
  let fp := fragment_file (Path.join (staging_base_dir p) (name p)) (contributor env p) in
  state p = "present" →
  is_Some (reported real.1) →
  Shape.reported_path dry.1 = Some fp ∧ Shape.reported_path real.1 = Some fp.
Proof.
  intros dry real fp Hst Hok. subst dry real. split.
  - unfold run_params, manage. rewrite Hst. done.
  - unfold run_params in *.
    destruct (manage env p false _ w) as [[r0|x] w0] eqn:Hm; simpl in *;
      [|by destruct Hok].
    apply manage_present_inv in Hm as (r1 & w1 & He & Hm); [|done].
    apply ensure_staging_directory_inv in He as [_ He].
    destruct r1 as [d'|x]; [|by destruct Hm].
    destruct He as (-> & _). destruct Hm as (r2 & w2 & Hf & Hm).
    apply fragment_exists_and_unchanged_inv in Hf as (_ & b & -> & _).
    destruct b.
    + destruct Hm as (_ & r3 & ? & _ & Hp). simplify_eq. by rewrite Hp.
    + destruct Hm as (r3 & Hw & Hm). apply write_fragment_inv in Hw.
      destruct r3 as [path|x]; [|done]. destruct Hw as (-> & _).
      destruct Hm as (r4 & ? & _ & Hp). simplify_eq. by rewrite Hp.
Qed.

Lemma dry_run_previews_path_witness :
  let env := Scenario.quiet in
  let p := Scenario.nginx_params "present" in
  let w := Scenario.bare in
  let fp := fragment_file (Path.join (staging_base_dir p) (name p)) (contributor env p) in
  is_Some (reported (run_params env p false w).1)
  ∧ Shape.reported_path (run_params env p true w).1 = Some fp
  ∧ Shape.reported_path (run_params env p false w).1 = Some fp.
Proof.
  intros env p w fp.
  assert (is_Some (reported (run_params env p false w).1)) as Hok
    by (exists true; vm_compute; reflexivity).
  split; [exact Hok|].
  exact (dry_run_previews_path env p w eq_refl Hok).
Defined.

(** ** Present, then absent *)

Lemma removelast_differs (k : list string) : k ≠ [] → removelast k ≠ k.
Proof.
  intros Hk E. pose proof (app_removelast_last "" Hk) as H. rewrite E in H.
  apply (f_equal length) in H. rewrite length_app in H. simpl in H. lia.
Qed.

(** With its parent there, a missing staging directory is the one
    directory [ensure_staging_directory] makes. *)
Lemma ensure_staging_directory_makes_leaf (env : environment) n b w d w1 perm :
  stat (fs w) (place env (Path.join b n)) = None →
  stat (fs w) (parent (place env (Path.join b n))) = Some (Dir perm) →
  ensure_staging_directory env n b w = (Ok d, w1) →
  fs w1 = <[place env (Path.join b n) := Dir (N.ldiff o755 (umask env))]> (fs w).
Proof.
  intros Hnone Hparent H.
  unfold ensure_staging_directory, bind, exists_, ret in H.
  rewrite bool_decide_eq_false_2 in H by (rewrite Hnone; by intros [? ?]).
  simpl in H. unfold makedirs, os_error in H.
  destruct (refuses env _); [done|].
  set (k := place env (Path.join b n)) in *.
  assert (k ≠ []) as Hk by (intros E; by rewrite E in Hnone).
  destruct (rev k) as [|a rh] eqn:Hrev.
  { apply (f_equal (@rev string)) in Hrev. rewrite rev_involutive in Hrev. done. }
  assert (k = rev rh ++ [a]) as Ek.
  { rewrite <- (rev_involutive k), Hrev. done. }
  cbn [makedirs_rev] in H.
  assert (rev rh = parent k) as Erh by (unfold parent; by rewrite Ek, removelast_last).
  rewrite Erh, Hparent in H.
  change (rev (a :: rh)) with (rev rh ++ [a]) in H. rewrite <- Ek in H.
  unfold mkdir in H. rewrite Hnone, Hparent in H. by simplify_eq.
Qed.

(** X16.  [present] followed by [absent] gives the file system back.  For
    a staging directory whose path is not empty and has no ["."] or
    [".."] segment and a contributor whose name has no slash, starting with no staging
    directory for the target (and nothing recorded under it) but with
    its parent directory there: if the [present] exits normally, the
    [absent] that follows (on a host that lets the file and the
    directory be removed) reports [changed=true] and leaves the file
    system exactly as it was before the [present]. *)
Theorem present_then_absent_restores (env env' : environment) (p : params) (w : world)
    (perm : N) :
  let d := Path.join (staging_base_dir p) (name p) in
  let fp := fragment_file d (contributor env p) in
  let out1 := run_params env p false w in
  let out2 := run_params env' (Shape.with_state "absent" p) false out1.2 in
  state p = "present" →
  Shape.literal d = true →
  Shape.contains Text.slash (contributor env p) = false →
  stat (fs w) (place env d) = None →
  stat (fs w) (parent (place env d)) = Some (Dir perm) →
  has_entries (fs w) (place env d) = false →
  is_Some (reported out1.1) →
  cwd env' = cwd env →
  contributor env' p = contributor env p →
  refuses env' (SysUnlink fp) = false →
  refuses env' (SysRmdir d) = false →
  reported out2.1 = Some true ∧ fs out2.2 = fs w.
Proof.
  intros d fp out1 out2 Hst _ Hrole Hnodir Hparent Hempty Hok Hcwd Hsame Hunlink Hrmdir.
  subst out2 out1.
  set (dk := place env d) in *. set (fk := place env fp).
  assert (∀ q, place env' q = place env q) as Hplace
    by (intros q; unfold place; by rewrite Hcwd).
  assert (fk = dk ++ [contributor env p +:+ ".fragment"]) as Efk.
  { unfold fk, dk, fp, place, fragment_file.
    by rewrite NameFacts.resolve_join_plain by by apply NameFacts.fragment_name_plain. }
  assert (fk ≠ []) as Hfk0 by (rewrite Efk; by destruct dk).
  assert (parent fk = dk) as Hpfk by (unfold parent; by rewrite Efk, removelast_last).
  assert (dk ≠ []) as Hdk0 by (intros E; by rewrite E in Hnodir).
  assert (fk ≠ dk) as Hne.
  { intros E. rewrite E in Hpfk. by apply (removelast_differs dk). }
  apply stat_none in Hnodir as [Hnodir _].
  assert (fs w !! fk = None) as Hnofile.
  { destruct (fs w !! fk) eqn:E; [|done]. exfalso.
    apply (proj1 (has_entries_false _ _) Hempty fk); eauto. }
  (* the present *)
  destruct (run_params env p false w) as [o w1] eqn:Hrun. simpl in *.
  destruct o as [r| |]; try by destruct Hok.
  unfold run_params in Hrun.
  destruct (manage env p false _ w) as [[r0|x] w0] eqn:Hm; [|done].
  injection Hrun as -> ->.
  apply manage_present_inv in Hm as (r1 & w0 & He & Hm); [|done].
  pose proof He as He'. apply ensure_staging_directory_inv in He' as [_ He'].
  destruct r1 as [d'|x]; [|by destruct Hm]. destruct He' as (-> & _).
  apply (ensure_staging_directory_makes_leaf _ _ _ _ _ _ perm) in He;
    [|by rewrite stat_lookup|done].
  fold d dk in He, Hm. destruct Hm as (r2 & w2 & Hf & Hm).
  apply fragment_exists_and_unchanged_inv in Hf as (Hfs2 & b & -> & Hf).
  fold fp fk in Hf. destruct b.
  { exfalso. destruct Hf as (-> & dt & perm' & Hfile & _).
    rewrite He, lookup_insert_ne in Hfile by done. congruence. }
  destruct Hm as (r3 & Hw & Hm). apply write_fragment_inv in Hw.
  destruct r3 as [path|x]; [|done]. destruct Hw as (_ & _ & Hfs1). fold fp fk in Hfs1.
  rewrite Hfs2, He in Hfs1. clear Hm Hf.
  (* the absent *)
  unfold run_params.
  assert (contributor env' (Shape.with_state "absent" p) = contributor env p) as ->
    by (rewrite <- Hsame; done).
  destruct (manage env' _ false _ w1) as [res w3] eqn:Hm.
  apply manage_absent_inv in Hm as (r1 & w1' & He2 & Hm); [|done].
  change (name (Shape.with_state "absent" p)) with (name p) in He2.
  change (staging_base_dir (Shape.with_state "absent" p)) with (staging_base_dir p) in He2.
  rewrite ensure_staging_directory_there in He2.
  2:{ fold d. rewrite Hplace. fold dk. rewrite stat_lookup by done.
      rewrite Hfs1, lookup_insert_ne, lookup_insert_eq by done. eauto. }
  injection He2 as <- <-. fold d in Hm. destruct Hm as (r2 & Hrm & Hm).
  apply remove_fragment_inv in Hrm. rewrite !Hplace in Hrm. fold fp fk dk in Hrm.
  assert (delete fk (fs w1) = <[dk := Dir (N.ldiff o755 (umask env))]> (fs w)) as Hdel.
  { rewrite Hfs1, delete_insert_eq, delete_id; [done|].
    by rewrite lookup_insert_ne. }
  destruct r2 as [[|]|x]; simpl in Hrm.
  - destruct Hm as (r' & -> & Hc). simpl. rewrite Hc. split; [done|].
    destruct Hrm as (_ & _ & [(_ & _ & ->)|(_ & _ & Hwhy)]).
    + by rewrite Hdel, delete_insert_eq, delete_id.
    + exfalso. rewrite Hdel in Hwhy.
      destruct Hwhy as [?|[?|[Hnot|Hhas]]]; [congruence|done| |].
      * apply (Hnot (N.ldiff o755 (umask env))).
        rewrite stat_lookup by done. by rewrite lookup_insert_eq.
      * apply has_entries_true_inv in Hhas as (k' & [nd Hk'] & Hk0 & Hpk).
        destruct (decide (k' = dk)) as [->|Hk'dk].
        -- by apply (removelast_differs dk).
        -- rewrite lookup_insert_ne in Hk' by done.
           apply (proj1 (has_entries_false _ _) Hempty k'); eauto.
  - exfalso. destruct Hrm as [_ Hn]. apply stat_none in Hn as [Hn _].
    by rewrite Hfs1, lookup_insert_eq in Hn.
  - exfalso. destruct Hrm as (e & _ & _ & _ & _ & Hnot).
    apply (Hnot Hunlink (stored_form (mode p) (fragment p)) o644).
    rewrite stat_lookup by done. by rewrite Hfs1, lookup_insert_eq.
Qed.

Lemma present_then_absent_restores_witness :
  let env := Scenario.quiet in
  let env' := Scenario.later in
  let p := Scenario.nginx_params "present" in
  let w := Scenario.base_only in
  let d := Path.join (staging_base_dir p) (name p) in
  let out1 := run_params env p false w in
  let out2 := run_params env' (Shape.with_state "absent" p) false out1.2 in
  Shape.literal d = true
  ∧ stat (fs w) (place env d) = None
  ∧ stat (fs w) (parent (place env d)) = Some (Dir o755)
  ∧ has_entries (fs w) (place env d) = false
  ∧ is_Some (reported out1.1)
  ∧ reported out2.1 = Some true ∧ fs out2.2 = fs w.
Proof.
  intros env env' p w d out1 out2.
  assert (Shape.literal d = true) as H0 by (vm_compute; reflexivity).
  assert (stat (fs w) (place env d) = None) as H1 by (vm_compute; reflexivity).
  assert (stat (fs w) (parent (place env d)) = Some (Dir o755)) as H2
    by (vm_compute; reflexivity).
  assert (has_entries (fs w) (place env d) = false) as H3 by (vm_compute; reflexivity).
  assert (is_Some (reported out1.1)) as H4 by (exists true; vm_compute; reflexivity).
  split; [exact H0|].
  split; [exact H1|]. split; [exact H2|]. split; [exact H3|]. split; [exact H4|].
  exact (present_then_absent_restores env env' p w o755
           eq_refl H0 eq_refl H1 H2 H3 H4 eq_refl eq_refl eq_refl eq_refl).
Defined.

(** [absent] with nothing to remove, on a host with the base directory
    only: the staging directory is the one thing added. *)
Lemma absent_missing_grows_witness :
  let env := Scenario.quiet in
  let p := Scenario.nginx_params "absent" in
  let w := Scenario.base_only in
  let d := Path.join (staging_base_dir p) (name p) in
  let out := run_params env p false w in
  let r := {| changed := false;
              message := "Fragment for profile usr.sbin.nginx from role nginx_role was not found";
              fragment_path := "" |} in
  Shape.literal d = true
  ∧ Shape.literal (fragment_file d (contributor env p)) = true
  ∧ stat (fs w) (place env (fragment_file d (contributor env p))) = None
  ∧ out = (ExitJson r, out.2)
  ∧ raised out.2 = raised w
  ∧ grows (place env d) (fs w) (fs out.2).
Proof.
  intros env p w d out r.
  assert (Shape.literal d = true) as Hd by (vm_compute; reflexivity).
  assert (Shape.literal (fragment_file d (contributor env p)) = true) as Hfp
    by (vm_compute; reflexivity).
  assert (stat (fs w) (place env (fragment_file d (contributor env p))) = None) as Hmiss
    by (vm_compute; reflexivity).
  assert (out = (ExitJson r, out.2)) as Hrun by (vm_compute; reflexivity).
  split; [exact Hd|]. split; [exact Hfp|]. split; [exact Hmiss|]. split; [exact Hrun|].
  exact (proj2 (absent_missing_grows env p w r out.2 eq_refl Hd Hfp Hmiss Hrun)).
Defined.

(** ** The action plugin at its edges *)

(** X17.  When the plugin itself fails (mutual exclusion, lookup, read or
    templating), the module has not been run and the managed host is
    untouched; and the plugin only ever fails for a task that gives a
    non-empty [fragment_src]. *)
Theorem plugin_failure_precedes_module (ctl : Action.controller) (env : environment)
    (a : task_args) (check_mode : bool) (w : world) (msg : string) :
  let out := Action.run ctl env a check_mode w in
  out.1.1 = Action.Failed msg →
  out.2 = w
  ∧ (∀ a', Action.ExecuteModule a' ∉ out.1.2)
  ∧ Action.supplied (arg_fragment_src a) = true.
Proof.
  intros out. subst out. unfold Action.run.
  assert (∀ path log0,
    (∀ a', Action.ExecuteModule a' ∉ log0) →
    let out := Action.read_and_template ctl env a path check_mode log0 w in
    out.1.1 = Action.Failed msg →
    out.2 = w ∧ ∀ a', Action.ExecuteModule a' ∉ out.1.2) as Read.
  { intros path log0 Hlog. unfold Action.read_and_template, Action.execute_module.
    destruct (Action.read_source ctl path) as [content|e]; simpl.
    2:{ intros _. split; [done|]. intros a' Hin.
        apply elem_of_app in Hin as [Hin|Hin]; [by apply (Hlog a')|].
        by apply list_elem_of_singleton in Hin. }
    destruct (Action.template ctl content) as [text|e]; simpl.
    2:{ intros _. split; [done|]. intros a' Hin.
        apply elem_of_app in Hin as [Hin|Hin]; [by apply (Hlog a')|].
        apply elem_of_cons in Hin as [?|Hin]; [done|].
        by apply list_elem_of_singleton in Hin. }
    by destruct (run_module env _ check_mode w). }
  destruct (Action.supplied (arg_fragment_src a)).
  2:{ unfold Action.execute_module. by destruct (run_module env a check_mode w). }
  destruct (Action.supplied (arg_fragment a)).
  { simpl. intros _. split; [done|]. split; [|done]. intros a'. apply not_elem_of_nil. }
  destruct (Action.find_needle ctl "files" _) as [p1|].
  { intros H. apply Read in H; [by destruct H|].
    intros a' Hin. by apply list_elem_of_singleton in Hin. }
  destruct (Action.find_needle ctl "templates" _) as [p2|].
  { intros H. apply Read in H; [by destruct H|].
    intros a' Hin. apply elem_of_cons in Hin as [?|Hin]; [done|].
    by apply list_elem_of_singleton in Hin. }
  simpl. intros _. split; [done|]. split; [|done].
  intros a' Hin. apply elem_of_cons in Hin as [?|Hin]; [done|].
  by apply list_elem_of_singleton in Hin.
Qed.

Lemma plugin_failure_precedes_module_witness :
  let out := Action.run Shape.no_such_file Scenario.quiet Scenario.by_reference false
               Scenario.bare in
  let msg := "Could not find or access 'apparmor/usr.sbin.nginx.rules' in files/ or templates/ directories" in
  out.1.1 = Action.Failed msg
  ∧ out.2 = Scenario.bare
  ∧ (∀ a', Action.ExecuteModule a' ∉ out.1.2)
  ∧ Action.supplied (arg_fragment_src Scenario.by_reference) = true.
Proof.
  intros out msg.
  assert (out.1.1 = Action.Failed msg) as H by (vm_compute; reflexivity).
  split; [exact H|].
  exact (plugin_failure_precedes_module Shape.no_such_file Scenario.quiet
           Scenario.by_reference false Scenario.bare msg H).
Defined.

(** X18.  The plugin tests the two content sources for truth, not for
    presence.  With a non-empty [fragment_src], an empty inline
    [fragment] is not a conflict: the task runs exactly as if the
    [fragment] key were absent. *)
Theorem empty_fragment_is_ignored (ctl : Action.controller) (env : environment)
    (a : task_args) (check_mode : bool) (w : world) :
  Action.supplied (arg_fragment_src a) = true →
  arg_fragment a = Some "" →
  Action.run ctl env a check_mode w
  = Action.run ctl env (Shape.without_fragment a) check_mode w.
Proof.
  intros Hs Hf. unfold Action.run, Action.read_and_template.
  change (arg_fragment_src (Shape.without_fragment a)) with (arg_fragment_src a).
  change (arg_fragment (Shape.without_fragment a)) with (@None string).
  rewrite Hs, Hf. done.
Qed.

Lemma empty_fragment_is_ignored_witness :
  let a := Shape.reference_and_empty_fragment in
  let out := Action.run Scenario.templates_only Scenario.quiet a false Scenario.bare in
  Action.supplied (arg_fragment_src a) = true
  ∧ arg_fragment a = Some ""
  ∧ out = Action.run Scenario.templates_only Scenario.quiet (Shape.without_fragment a)
            false Scenario.bare
  ∧ fs out.2 !! Scenario.nginx_fragment = Some (File Scenario.nginx_stored o644).
Proof.
  intros a out. split; [reflexivity|]. split; [reflexivity|].
  split; [exact (empty_fragment_is_ignored Scenario.templates_only Scenario.quiet a
                   false Scenario.bare eq_refl eq_refl)|].
  vm_compute. reflexivity.
Defined.

(** X19.  An empty [fragment_src] beside an inline [fragment] passes the
    plugin untouched (nothing is looked up) and is then turned down by
    the module, for which both keys are supplied: the task ends as an
    argument error and the host is as it was. *)
Theorem empty_reference_conflicts (ctl : Action.controller) (env : environment)
    (a : task_args) (check_mode : bool) (w : world) (f : string) :
  arg_fragment_src a = Some "" →
  arg_fragment a = Some f →
  Action.run ctl env a check_mode w
  = (Action.Returned
       (ArgumentError "parameters are mutually exclusive: fragment_src|fragment"),
     [Action.ExecuteModule a], w).
Proof.
  intros Hs Hf. unfold Action.run, Action.execute_module, run_module,
    Ansible.AnsibleModule, Ansible.count_terms.
  by rewrite Hs, Hf.
Qed.

Lemma empty_reference_conflicts_witness :
  let a := Shape.empty_reference_and_fragment in
  arg_fragment_src a = Some ""
  ∧ arg_fragment a = Some Scenario.nginx_rules
  ∧ Action.run Shape.no_such_file Scenario.quiet a false Scenario.bare
    = (Action.Returned
         (ArgumentError "parameters are mutually exclusive: fragment_src|fragment"),
       [Action.ExecuteModule a], Scenario.bare).
Proof.
  intros a. split; [reflexivity|]. split; [reflexivity|].
  exact (empty_reference_conflicts Shape.no_such_file Scenario.quiet a false
           Scenario.bare Scenario.nginx_rules eq_refl eq_refl).
Defined.

(** X20.  An empty [fragment_src] with no inline [fragment] is accepted.
    The plugin looks nothing up, the module finds one content source
    supplied, and its [fragment] parameter is [None]: a [present] that
    writes then stages the text ["None"] under the mode line. *)
Theorem empty_reference_stages_None (ctl : Action.controller) (env : environment)
    (a : task_args) (w : world) (p : params) (r : result) :
  let out := Action.run ctl env a false w in
  let fk := place env (fragment_file (Path.join (staging_base_dir p) (name p))
                                     (contributor env p)) in
  arg_fragment_src a = Some "" →
  arg_fragment a = None →
  Ansible.AnsibleModule a = inr p →
  state p = "present" →
  out.1.1 = Action.Returned (ExitJson r) →
  changed r = true →
  out.1.2 = [Action.ExecuteModule a]
  ∧ fs out.2 !! fk = Some (File ("# Mode: " +:+ mode p +:+ Text.nl +:+ "None") o644).
Proof.
  intros out fk Hs Hf Hp Hst Hres Hch. subst out.
  assert (fragment p = None) as Hnone.
  { unfold Ansible.AnsibleModule, Ansible.count_terms in Hp. rewrite Hs, Hf in Hp.
    simpl in Hp. repeat case_match; simplify_eq; done. }
  unfold Action.run, Action.execute_module, run_module in *.
  rewrite Hs in *. simpl in *. rewrite Hp in *.
  destruct (run_params env p false w) as [o w'] eqn:Hrun. simpl in *.
  split; [done|]. injection Hres as ->.
  apply present_establishes in Hrun as [_ Hrun]; [|done]. fold fk in Hrun.
  rewrite Hch in Hrun. destruct Hrun as [Hfile _]. by rewrite Hnone in Hfile.
Qed.

Lemma empty_reference_stages_None_witness :
  let a := Shape.empty_reference in
  let p := {| name := "usr.sbin.nginx"; fragment_src := Some ""; fragment := None;
              mode := "enforce"; role_name := Some "nginx_role"; state := "present";
              staging_base_dir := "/etc/apparmor.d/roles" |} in
  let r := {| changed := true;
              message := "Fragment for profile usr.sbin.nginx from role nginx_role has been created";
              fragment_path := "/etc/apparmor.d/roles/usr.sbin.nginx/nginx_role.fragment" |} in
  let out := Action.run Shape.no_such_file Scenario.quiet a false Scenario.bare in
  let fk := place Scenario.quiet
              (fragment_file (Path.join (staging_base_dir p) (name p))
                             (contributor Scenario.quiet p)) in
  Ansible.AnsibleModule a = inr p
  ∧ out.1.1 = Action.Returned (ExitJson r)
  ∧ out.1.2 = [Action.ExecuteModule a]
  ∧ fs out.2 !! fk = Some (File ("# Mode: " +:+ mode p +:+ Text.nl +:+ "None") o644).
Proof.
  intros a p r out fk.
  assert (Ansible.AnsibleModule a = inr p) as Hp by (vm_compute; reflexivity).
  assert (out.1.1 = Action.Returned (ExitJson r)) as Hres by (vm_compute; reflexivity).
  split; [exact Hp|]. split; [exact Hres|].
  exact (empty_reference_stages_None Shape.no_such_file Scenario.quiet a Scenario.bare p r
           eq_refl eq_refl Hp eq_refl Hres eq_refl).
Defined.
